(** * Guest-mode persistence of the academic scheduler front end

    A shallow embedding of the browser-side code that keeps tasks and
    courses in [localStorage] while the user is a guest:

    - [utils/guestMode.ts]: the guest session token and its migration;
    - [pages/Dashboard.tsx]: [getLocalTasks], [computeStats],
      [fetchSupabaseTasks] and [refreshStats];
    - [components/Navigation.tsx]: [handleLogout];
    - [utils/debug/test-logout-cleanup.js]: the logout cleanup check.

    JavaScript values are modelled dynamically (the code reads parsed JSON
    typed [any]); exceptions are explicit; the runtime's built-ins that the
    code calls ([JSON.parse], the [Date] constructor, the host time zone)
    are the fields of a class, [Runtime]. *)

From Stdlib Require Import ZArith QArith Ascii String.
From stdpp Require Import gmap strings list fin_maps.

Set Warnings "-register-all".
Local Open Scope string_scope.
Local Open Scope Z_scope.

(** ** JavaScript values *)

Module Js.

(** The values this code handles: what [JSON.parse] and [response.json()]
    build, and [undefined], which a missing property reads as. *)
Inductive Value : Type :=
  | Undefined
  | Null
  | Bool (b : bool)
  | Number (q : Q)
  | Str (s : string)
  | Array (elems : list Value)
  | Object (fields : gmap string Value).

(** ToBoolean.  Numbers here come from JSON text, which has no NaN. *)
Definition truthy (v : Value) : bool :=
  match v with
  | Undefined | Null => false
  | Bool b => b
  | Number q => negb (Qeq_bool q 0)
  | Str s => negb (String.eqb s EmptyString)
  | Array _ | Object _ => true
  end.

(** [a || b] *)
Definition or_else (a b : Value) : Value := if truthy a then a else b.

(** Exceptions: [TypeError] (a property of [null], a call of something
    that is no function, a rejected [fetch]) and [SyntaxError] (text that
    is no JSON). *)
Inductive Error : Type := TypeError | SyntaxError.

Inductive Completion (A : Type) : Type :=
  | Normal (a : A)
  | Throw (e : Error).
Arguments Normal {A} a.
Arguments Throw {A} e.

#[global] Instance Completion_ret : MRet Completion := λ A a, Normal a.
#[global] Instance Completion_bind : MBind Completion := λ A B k c,
  match c with
  | Normal a => k a
  | Throw e => Throw e
  end.

(** [try { c } catch { h }] *)
Definition try_catch {A} (c : Completion A) (h : Error → A) : A :=
  match c with
  | Normal a => a
  | Throw e => h e
  end.

(** [v.name] for the property names this program reads ([id], [title],
    [due_date], [status], [user_id], [tasks]): none of them is defined on a
    prototype, so only an object's own fields answer; reading a property of
    [undefined] or [null] throws. *)
Definition get (v : Value) (name : string) : Completion Value :=
  match v with
  | Undefined | Null => Throw TypeError
  | Object fields => Normal (default Undefined (fields !! name))
  | _ => Normal Undefined
  end.

(** [v === s] for a string literal [s]. *)
Definition strict_eq_str (v : Value) (s : string) : bool :=
  match v with
  | Str s' => String.eqb s' s
  | _ => false
  end.

End Js.


(** ** Time values and the [Date] methods the dashboard calls

    ECMAScript's date arithmetic (ECMA-262, "Date Objects"): a time value is
    a number of milliseconds since the epoch, or NaN ([None]).  The host's
    time zone is the offset function [LocalTZA]. *)

Module Date.

Definition msPerDay : Z := 86400000.

Definition Day (t : Z) : Z := t `div` msPerDay.
Definition TimeWithinDay (t : Z) : Z := t `mod` msPerDay.

Definition DaysInYear (y : Z) : Z :=
  if negb (y `mod` 4 =? 0) then 365
  else if negb (y `mod` 100 =? 0) then 366
  else if negb (y `mod` 400 =? 0) then 365
  else 366.

Definition DayFromYear (y : Z) : Z :=
  365 * (y - 1970) + (y - 1969) `div` 4 - (y - 1901) `div` 100
  + (y - 1601) `div` 400.

Definition TimeFromYear (y : Z) : Z := msPerDay * DayFromYear y.

(** The largest year [y] with [TimeFromYear y <= t]: an estimate from the
    mean length of a year, moved by at most one year. *)
Definition YearFromTime (t : Z) : Z :=
  let y := 1970 + (Day t * 400) `div` 146097 in
  if DayFromYear (y + 1) <=? Day t then y + 1
  else if DayFromYear y <=? Day t then y
  else y - 1.

Definition InLeapYear (t : Z) : Z :=
  if DaysInYear (YearFromTime t) =? 366 then 1 else 0.

Definition DayWithinYear (t : Z) : Z := Day t - DayFromYear (YearFromTime t).

(** Day number, within its year, of the first day of month [m] (0-11). *)
Definition month_start (leap m : Z) : Z :=
  match m with
  | 0 => 0
  | 1 => 31
  | 2 => 59 + leap
  | 3 => 90 + leap
  | 4 => 120 + leap
  | 5 => 151 + leap
  | 6 => 181 + leap
  | 7 => 212 + leap
  | 8 => 243 + leap
  | 9 => 273 + leap
  | 10 => 304 + leap
  | _ => 334 + leap
  end.

Definition MonthFromTime (t : Z) : Z :=
  let d := DayWithinYear t in
  let leap := InLeapYear t in
  if d <? 31 then 0
  else if d <? 59 + leap then 1
  else if d <? 90 + leap then 2
  else if d <? 120 + leap then 3
  else if d <? 151 + leap then 4
  else if d <? 181 + leap then 5
  else if d <? 212 + leap then 6
  else if d <? 243 + leap then 7
  else if d <? 273 + leap then 8
  else if d <? 304 + leap then 9
  else if d <? 334 + leap then 10
  else 11.

(** Day of the month, 1-31. *)
Definition DateFromTime (t : Z) : Z :=
  DayWithinYear t - month_start (InLeapYear t) (MonthFromTime t) + 1.

(** [MakeDay(year, month, date)]: the day number of the first of the month
    (months beyond 0-11 carry into the year), plus [date - 1]. *)
Definition MakeDay (year month date : Z) : Z :=
  let ym := year + month `div` 12 in
  let mn := month `mod` 12 in
  let leap := if DaysInYear ym =? 366 then 1 else 0 in
  DayFromYear ym + month_start leap mn + date - 1.

Definition MakeDate (day time : Z) : Z := day * msPerDay + time.

(** [TimeClip]: a time value beyond +-8.64e15 ms is NaN. *)
Definition TimeClip (t : Z) : option Z :=
  if Z.abs t <=? 8640000000000000 then Some t else None.

(** Dates compare by their time values; a comparison with NaN is false. *)
Definition le (a b : option Z) : bool :=
  match a, b with
  | Some x, Some y => x <=? y
  | _, _ => false
  end.
Definition ge (a b : option Z) : bool := le b a.

(** [Number.isNaN(d.getTime())] *)
Definition isNaN (a : option Z) : bool :=
  match a with Some _ => false | None => true end.

End Date.

(** ** The runtime the code runs on *)

(** What the browser supplies and the repository does not define. *)
Class Runtime : Type := {
  (** [JSON.parse(text)]; [None] is a thrown [SyntaxError]. *)
  JSON_parse : string → option Js.Value;
  (** The time value of [new Date(v)]; [None] is an invalid date. *)
  new_Date : Js.Value → option Z;
  (** [LocalTZA(t, isUTC)]: the local zone's offset from UTC, in ms, at the
      UTC time [t] ([isUTC]) or at the local time [t]. *)
  LocalTZA : Z → bool → Z;
}.

Section DateMethods.
Context {rt : Runtime}.

Definition LocalTime (t : Z) : Z := t + LocalTZA t true.
Definition UTC (t : Z) : Z := t - LocalTZA t false.

(** [d.getDate()] of a valid date with time value [t]. *)
Definition getDate (t : Z) : Z := Date.DateFromTime (LocalTime t).

(** [d.setDate(dt)]: the new time value of [d]. *)
Definition setDate (t dt : Z) : option Z :=
  let lt := LocalTime t in
  let newDate :=
    Date.MakeDate
      (Date.MakeDay (Date.YearFromTime lt) (Date.MonthFromTime lt) dt)
      (Date.TimeWithinDay lt) in
  Date.TimeClip (UTC newDate).
End DateMethods.

(** ** [localStorage] *)

(** The Web Storage area: string keys, string values, one value per key.
    The order in which [key(i)] and [Object.keys] enumerate it is the
    browser's; [map_to_list] stands for it. *)
Module Storage.

Definition getItem (ls : gmap string string) (key : string) : option string :=
  ls !! key.

Definition setItem (key value : string) (ls : gmap string string)
  : gmap string string := <[key := value]> ls.

Definition removeItem (key : string) (ls : gmap string string)
  : gmap string string := delete key ls.

(** [Object.keys(localStorage)] *)
Definition keys (ls : gmap string string) : list string := (map_to_list ls).*1.

(** [localStorage.length] and [localStorage.key(i)] *)
Definition length (ls : gmap string string) : nat := size ls.
Definition key (ls : gmap string string) (i : nat) : option string := keys ls !! i.

(** ToBoolean of what [getItem] returned: [null] and the empty string are
    falsy. *)
Definition truthy (item : option string) : bool :=
  match item with
  | Some s => negb (String.eqb s EmptyString)
  | None => false
  end.

End Storage.

(** [key.startsWith(p)] *)
Definition startsWith (p key : string) : bool := String.prefix p key.

(** ** Network *)

Record Request : Type := {
  url : string;
  method : string;
  (** the object given to [JSON.stringify] for the request body *)
  body : Js.Value;
}.

Record Response : Type := {
  ok : bool;
  (** [response.json()]: the parsed body, or the rejection *)
  json : Js.Completion Js.Value;
}.

(** The browser state the guest utilities act on: the storage area and the
    requests issued so far, oldest first. *)
Record World : Type := {
  localStorage : gmap string string;
  requests : list Request;
}.

Definition fetch (req : Request) (w : World) : World :=
  {| localStorage := localStorage w; requests := (requests w ++ [req])%list |}.

(** ** utils/guestMode.ts *)

Module GuestMode.

(** The request of [createGuestSessionInBackend]. *)
Definition registration (sessionId : string) : Request :=
  {| url := "http://localhost:8000/api/guest/session";
     method := "POST";
     body := Js.Object {[ "session_id" := Js.Str sessionId ]} |}.

(** [createGuestSessionInBackend]: [net] is how the awaited [fetch] settles
    (a response, or a thrown network error, which is caught and logged). *)
Definition createGuestSessionInBackend (sessionId : string)
    (net : Js.Completion Response) (w : World) : World :=
  let w1 := fetch (registration sessionId) w in
  Js.try_catch (_ ← net; mret w1) (λ _, w1).

(** [getOrCreateGuestSession]: [uuid] is what [crypto.randomUUID()] returns
    if it is called. *)
Definition getOrCreateGuestSession (uuid : string)
    (net : Js.Completion Response) (w : World) : string * World :=
  let sessionId := Storage.getItem (localStorage w) "guest_session_id" in
  if negb (Storage.truthy sessionId) then
    let sessionId := "guest-" +:+ uuid in
    let w1 := {| localStorage :=
                   Storage.setItem "guest_session_id" sessionId (localStorage w);
                 requests := requests w |} in
    (sessionId, createGuestSessionInBackend sessionId net w1)
  else (default EmptyString sessionId, w).

Definition isGuest (w : World) : bool :=
  negb (Storage.truthy (Storage.getItem (localStorage w) "access_token")).

Definition isLoggedIn (w : World) : bool :=
  Storage.truthy (Storage.getItem (localStorage w) "access_token").

Definition getGuestSessionId (w : World) : option string :=
  Storage.getItem (localStorage w) "guest_session_id".

Definition clearGuestSession (w : World) : World :=
  {| localStorage := Storage.removeItem "guest_session_id" (localStorage w);
     requests := requests w |}.

(** The literal [{ migrated_tasks: 0, migrated_courses: 0 }]. *)
Definition no_migration : Js.Value :=
  Js.Object {[ "migrated_tasks" := Js.Number 0; "migrated_courses" := Js.Number 0 ]}.

(** [migrateGuestData(userId)]: the value the promise resolves to, and the
    state it leaves. *)
Definition migrateGuestData (userId : string)
    (net : Js.Completion Response) (w : World) : Js.Value * World :=
  let guestSessionId := getGuestSessionId w in
  if negb (Storage.truthy guestSessionId) then (no_migration, w)
  else
    let w1 :=
      fetch {| url := "http://localhost:8000/api/guest/migrate/"
                      +:+ default EmptyString guestSessionId;
               method := "POST";
               body := Js.Object {[ "user_id" := Js.Str userId ]} |} w in
    let returned : option (Js.Value * World) :=
      Js.try_catch
        (response ← net;
         if ok response then
           data ← json response;
           mret (Some (data, clearGuestSession w1))
         else mret None)
        (λ _, None) in
    match returned with
    | Some r => r
    | None => (no_migration, w1)
    end.

End GuestMode.

(** ** components/Navigation.tsx *)

Module Navigation.

(** [handleLogout], as it acts on the storage area (it then closes the menu
    and navigates to [/auth]). *)
Definition handleLogout (ls : gmap string string) : gmap string string :=
  Storage.removeItem "user_id"
    (Storage.removeItem "user_email"
       (Storage.removeItem "access_token" ls)).

End Navigation.

(** ** utils/debug/test-logout-cleanup.js *)

Module LogoutCleanupTest.

(** The filter of [checkLocalStorageData]. *)
Definition isGuestKey (key : string) : bool :=
  startsWith "task_" key
  || startsWith "course_" key
  || String.eqb key "guest_session_id"
  || startsWith "uploaded_files" key
  || startsWith "guest_" key.

Definition guestKeys (ls : gmap string string) : list string :=
  List.filter isGuestKey (Storage.keys ls).

(** [checkLocalStorageData()]: the number of guest-related keys; the script
    reports the cleanup as passed when it is 0. *)
Definition checkLocalStorageData (ls : gmap string string) : nat :=
  List.length (guestKeys ls).

End LogoutCleanupTest.

(** ** pages/Dashboard.tsx *)

(** [s.toLowerCase()] on the code units below 128; the others are left as
    they are, which no comparison with an ASCII literal can tell apart. *)
Definition ascii_toLowerCase (c : ascii) : ascii :=
  let n := nat_of_ascii c in
  if (65 <=? n)%nat && (n <=? 90)%nat then ascii_of_nat (n + 32) else c.

Fixpoint toLowerCase (s : string) : string :=
  match s with
  | EmptyString => EmptyString
  | String c s' => String (ascii_toLowerCase c) (toLowerCase s')
  end.

(** The three counters of [computeStats]. *)
Record Stats : Type := {
  completed : nat;
  pending : nat;
  dueSoon : nat;
}.

Module Dashboard.
Section WithRuntime.
Context {rt : Runtime}.

(** [JSON.parse(text)] *)
Definition parse (text : string) : Js.Completion Js.Value :=
  match JSON_parse text with
  | Some v => Js.Normal v
  | None => Js.Throw Js.SyntaxError
  end.

(** [task && task.id && task.user_id === 'guest'], as a condition *)
Definition isGuestTask (task : Js.Value) : Js.Completion bool :=
  if Js.truthy task then
    id ← Js.get task "id";
    if Js.truthy id then
      user_id ← Js.get task "user_id";
      mret (Js.strict_eq_str user_id "guest")
    else mret false
  else mret false.

(** One turn of the [for] loop of [getLocalTasks], at index [i]. *)
Definition getLocalTasks_step (ls : gmap string string)
    (tasks : list Js.Value) (i : nat) : list Js.Value :=
  match Storage.key ls i with
  | Some key =>
      if Storage.truthy (Some key) && startsWith "task_" key then
        Js.try_catch
          (let item := Storage.getItem ls key in
           task ← parse (if Storage.truthy item then default EmptyString item else "{}");
           guest ← isGuestTask task;
           mret (if guest : bool then (tasks ++ [task])%list else tasks))
          (λ _, tasks)
      else tasks
  | None => tasks
  end.

Definition getLocalTasks (ls : gmap string string) : list Js.Value :=
  foldl (getLocalTasks_step ls) [] (seq 0 (Storage.length ls)).

(** [(task.status || '').toLowerCase()]: only a string has the method. *)
Definition status_of (task : Js.Value) : Js.Completion string :=
  status ← Js.get task "status";
  match Js.or_else status (Js.Str EmptyString) with
  | Js.Str s => mret (toLowerCase s)
  | _ => Js.Throw Js.TypeError
  end.

(** [dueSoonThreshold]: a copy of [now] moved by [setDate(getDate() + 7)]. *)
Definition dueSoonThreshold (now : Z) : option Z :=
  setDate now (getDate now + 7).

(** The callback of [tasks.forEach] in [computeStats]. *)
Definition count_task (now : Z) (threshold : option Z)
    (acc : Stats) (task : Js.Value) : Js.Completion Stats :=
  status ← status_of task;
  if String.eqb status "completed" then
    mret {| completed := S (completed acc); pending := pending acc;
            dueSoon := dueSoon acc |}
  else
    let acc := {| completed := completed acc; pending := S (pending acc);
                  dueSoon := dueSoon acc |} in
    due_date ← Js.get task "due_date";
    if Js.truthy due_date then
      let dueDate := new_Date due_date in
      if negb (Date.isNaN dueDate)
         && Date.ge dueDate (Some now)
         && Date.le dueDate threshold
      then mret {| completed := completed acc; pending := pending acc;
                   dueSoon := S (dueSoon acc) |}
      else mret acc
    else mret acc.

(** [tasks.forEach(f)], threading the counters. *)
Fixpoint forEach (f : Stats → Js.Value → Js.Completion Stats)
    (tasks : list Js.Value) (acc : Stats) : Js.Completion Stats :=
  match tasks with
  | [] => mret acc
  | task :: rest => acc' ← f acc task; forEach f rest acc'
  end.

(** [computeStats(tasks)], evaluated when [new Date()] is [now]. *)
Definition computeStats (now : Z) (tasks : list Js.Value)
  : Js.Completion Stats :=
  let dueSoonThreshold := dueSoonThreshold now in
  forEach (count_task now dueSoonThreshold) tasks
    {| completed := 0; pending := 0; dueSoon := 0 |}.

(** The object literal built by the callback of [.map] in
    [fetchSupabaseTasks]. *)
Definition pick_fields (task : Js.Value) : Js.Completion Js.Value :=
  id ← Js.get task "id";
  title ← Js.get task "title";
  due_date ← Js.get task "due_date";
  status ← Js.get task "status";
  mret (Js.Object {[ "id" := id; "title" := title;
                     "due_date" := due_date; "status" := status ]}).

(** [v.map(f)]: only an array has the method. *)
Definition Array_map (f : Js.Value → Js.Completion Js.Value) (v : Js.Value)
  : Js.Completion (list Js.Value) :=
  match v with
  | Js.Array elems =>
      foldr (λ x acc, y ← f x; ys ← acc; mret (y :: ys)) (mret []) elems
  | _ => Js.Throw Js.TypeError
  end.

(** [fetchSupabaseTasks]: [remote] is how the awaited [fetchAllTasks()] of
    [utils/taskStorage] settles; [None] is the returned [null]. *)
Definition fetchSupabaseTasks (remote : Js.Completion Js.Value)
  : option (list Js.Value) :=
  Js.try_catch
    (data ← remote;
     tasks ← Js.get data "tasks";
     picked ← Array_map pick_fields (Js.or_else tasks (Js.Array []));
     mret (Some picked))
    (λ _, None).

(** [refreshStats]: the value handed to [setStatsSnapshot], or the
    exception that rejects the promise. *)
Definition refreshStats (now : Z) (remote : Js.Completion Js.Value)
    (ls : gmap string string) : Js.Completion Stats :=
  let token := Storage.getItem ls "access_token" in
  let from_remote : option (Js.Completion Stats) :=
    if Storage.truthy token then
      match fetchSupabaseTasks remote with
      | Some supabaseTasks =>
          if (0 <? List.length supabaseTasks)%nat
          then Some (computeStats now supabaseTasks)
          else None
      | None => None
      end
    else None in
  match from_remote with
  | Some stats => stats
  | None => computeStats now (getLocalTasks ls)
  end.

End WithRuntime.
End Dashboard.

(** ** Vocabulary of the properties *)

(** The declared type of a task, [interface StoredTask { id: string; title:
    string; due_date?: string; status?: string }], as a check on a value. *)
Definition is_string (o : option Js.Value) : bool :=
  match o with
  | Some (Js.Str _) => true
  | _ => false
  end.

Definition is_optional_string (o : option Js.Value) : bool :=
  match o with
  | None | Some Js.Undefined | Some (Js.Str _) => true
  | _ => false
  end.

Definition StoredTask (task : Js.Value) : bool :=
  match task with
  | Js.Object fields =>
      is_string (fields !! "id") && is_string (fields !! "title")
      && is_optional_string (fields !! "due_date")
      && is_optional_string (fields !! "status")
  | _ => false
  end.

(** The string held by a field of a record, if it holds one. *)
Definition string_field (task : Js.Value) (name : string) : option string :=
  match task with
  | Js.Object fields =>
      match fields !! name with
      | Some (Js.Str s) => Some s
      | _ => None
      end
  | _ => None
  end.

(** Two code units are the same letter up to case: equal, or an upper-case
    ASCII letter and its lower-case form, 32 further. *)
Definition same_letter (a b : ascii) : bool :=
  let x := nat_of_ascii a in
  let y := nat_of_ascii b in
  (x =? y)%nat
  || ((65 <=? x)%nat && (x <=? 90)%nat && (x + 32 =? y)%nat)
  || ((65 <=? y)%nat && (y <=? 90)%nat && (y + 32 =? x)%nat).

Fixpoint eqb_ignore_case (s t : string) : bool :=
  match s, t with
  | EmptyString, EmptyString => true
  | String a s', String b t' => same_letter a b && eqb_ignore_case s' t'
  | _, _ => false
  end.

(** The status field reads [completed], in any letter case. *)
Definition has_completed_status (task : Js.Value) : bool :=
  match string_field task "status" with
  | Some s => eqb_ignore_case s "completed"
  | None => false
  end.

Section Vocabulary.
Context {rt : Runtime}.

(** The local wall-clock time of [now], [n] days later on the calendar. *)
Definition add_calendar_days (now n : Z) : Z :=
  UTC (LocalTime now + n * Date.msPerDay).

(** The instant a task is due: what its [due_date] string parses to. An
    absent or empty [due_date] gives none. *)
Definition due_timestamp (task : Js.Value) : option Z :=
  match string_field task "due_date" with
  | Some s => if String.eqb s EmptyString then None else new_Date (Js.Str s)
  | None => None
  end.

(** Due within [[now, now + 7 calendar days]], both ends included. *)
Definition due_within_week (now : Z) (task : Js.Value) : bool :=
  match due_timestamp task with
  | Some d => (now <=? d) && (d <=? add_calendar_days now 7)
  | None => false
  end.
End Vocabulary.

(** [null] or [undefined] *)
Definition nullish (v : Js.Value) : bool :=
  match v with
  | Js.Undefined | Js.Null => true
  | _ => false
  end.

(** The number of tasks of a list that satisfy [p]. *)
Fixpoint count (p : Js.Value → bool) (tasks : list Js.Value) : nat :=
  match tasks with
  | [] => 0
  | task :: rest => (if p task then 1 else 0) + count p rest
  end.

(** A record of the storage area that the guest scan may return: the parse
    of the text under a key that starts with [task_], owned by [guest]. *)
Definition scanned {rt : Runtime} (ls : gmap string string)
    (task : Js.Value) : Prop :=
  ∃ key text,
    ls !! key = Some text ∧ startsWith "task_" key = true
    ∧ JSON_parse (if String.eqb text EmptyString then "{}" else text)
      = Some task
    ∧ string_field task "user_id" = Some "guest".

(** Due no earlier than [now] and no later than the date [limit]. *)
Definition due_between {rt : Runtime} (now : Z) (limit : option Z)
    (task : Js.Value) : bool :=
  match due_timestamp task with
  | Some d => (now <=? d) && Date.le (Some d) limit
  | None => false
  end.

(** Not completed, and due in the window. *)
Definition pending_and_due_within_week {rt : Runtime} (now : Z)
    (task : Js.Value) : bool :=
  negb (has_completed_status task) && due_within_week now task.

(** A time value a [Date] can hold. *)
Definition Date_in_range (t : Z) : Prop := Z.abs t ≤ 8640000000000000.

(** The keys the cleanup contract is about. *)
Definition guest_data_key (key : string) : bool :=
  startsWith "task_" key || startsWith "course_" key
  || String.eqb key "guest_session_id".

(** ** A concrete runtime and concrete states

    The scenario of the cleanup script and of the dashboard, for running the
    definitions: three guest tasks and a course under the guest token
    [guest-T1], a signed-in user, and a zone with a daylight-saving change
    inside the coming week. *)

Module Demo.

(** The quotation mark of JSON text. *)
Definition dq : string := String "034"%char EmptyString.

Definition json_field (name value : string) : string :=
  dq +:+ name +:+ dq +:+ ":" +:+ dq +:+ value +:+ dq.

(** The text [JSON.stringify] writes for a stored task, and its parse. *)
Definition task_text (id owner status due : string) : string :=
  "{" +:+ json_field "id" id +:+ "," +:+ json_field "title" ("Task " +:+ id)
  +:+ "," +:+ json_field "due_date" due +:+ "," +:+ json_field "status" status
  +:+ "," +:+ json_field "user_id" owner +:+ "}".

Definition task_value (id owner status due : string) : Js.Value :=
  Js.Object {[ "id" := Js.Str id; "title" := Js.Str ("Task " +:+ id);
               "due_date" := Js.Str due; "status" := Js.Str status;
               "user_id" := Js.Str owner ]}.

Definition course_text : string :=
  "{" +:+ json_field "id" "x" +:+ "," +:+ json_field "name" "Algebra"
  +:+ "," +:+ json_field "user_id" "guest" +:+ "}".

Definition course_value : Js.Value :=
  Js.Object {[ "id" := Js.Str "x"; "name" := Js.Str "Algebra";
               "user_id" := Js.Str "guest" ]}.

Definition course_tasks_text : string :=
  "[" +:+ dq +:+ "a" +:+ dq +:+ "," +:+ dq +:+ "b" +:+ dq +:+ ","
  +:+ dq +:+ "c" +:+ dq +:+ "]".

(** 2024-03-28T12:00:00Z, the evaluation time. *)
Definition now : Z := 1711627200000.

Definition week_later : string := "2024-04-04T11:00:00.000Z".
Definition week_later_1s : string := "2024-04-04T11:00:01.000Z".
Definition monday : string := "2024-04-01T09:00:00.000Z".
Definition last_month : string := "2024-03-01T09:00:00.000Z".
Definition not_a_date : string := "next week".

Definition task_a : Js.Value := task_value "a" "guest" "pending" week_later.
Definition task_b : Js.Value := task_value "b" "guest" "Completed" monday.
Definition task_c : Js.Value := task_value "c" "guest" "pending" not_a_date.
Definition task_d : Js.Value := task_value "d" "guest" "pending" week_later_1s.
Definition task_r : Js.Value := task_value "r" "registered" "pending" monday.

(** What [JSON.parse] gives on the texts stored here; any other text is
    taken to be malformed. *)
Definition parses : gmap string Js.Value :=
  {[ task_text "a" "guest" "pending" week_later := task_a;
     task_text "b" "guest" "Completed" monday := task_b;
     task_text "c" "guest" "pending" not_a_date := task_c;
     task_text "r" "registered" "pending" monday := task_r;
     course_text := course_value;
     course_tasks_text := Js.Array [Js.Str "a"; Js.Str "b"; Js.Str "c"];
     "{}" := Js.Object ∅ ]}.

(** The time values of the date strings used here. *)
Definition dates : gmap string Z :=
  {[ week_later := 1712228400000;
     week_later_1s := 1712228401000;
     monday := 1711962000000;
     last_month := 1709283600000 ]}.

(** A zone one hour ahead of UTC that moves to two hours ahead at
    2024-03-31T01:00:00Z (02:00 local). *)
Definition zone (t : Z) (isUTC : bool) : Z :=
  let change := if isUTC then 1711846800000 else 1711846800000 + 3600000 in
  if t <? change then 3600000 else 7200000.

Definition runtime : Runtime := {|
  JSON_parse text := parses !! text;
  new_Date v := match v with Js.Str s => dates !! s | _ => None end;
  LocalTZA := zone;
|}.

(** A zone with no offset, for contrast. *)
Definition runtime_utc : Runtime := {|
  JSON_parse text := parses !! text;
  new_Date v := match v with Js.Str s => dates !! s | _ => None end;
  LocalTZA _ _ := 0;
|}.

(** The storage area of the cleanup scenario, with a signed-in user. *)
Definition storage : gmap string string :=
  {[ "access_token" := "jwt-1";
     "user_email" := "ann@example.edu";
     "user_id" := "42";
     "guest_session_id" := "guest-T1";
     "task_a" := task_text "a" "guest" "pending" week_later;
     "task_b" := task_text "b" "guest" "Completed" monday;
     "task_c" := task_text "c" "guest" "pending" not_a_date;
     "course_x" := course_text;
     "course_x_tasks" := course_tasks_text ]}.

(** The same area before anyone signed in. *)
Definition guest_storage : gmap string string :=
  Storage.removeItem "user_id"
    (Storage.removeItem "user_email"
       (Storage.removeItem "access_token" storage)).

(** An area that also holds a task of a registered user, a malformed task
    entry, and a guest task under a key that is not a task key. *)
Definition mixed_storage : gmap string string :=
  {[ "task_a" := task_text "a" "guest" "pending" week_later;
     "task_r" := task_text "r" "registered" "pending" monday;
     "task_bad" := "{oops";
     "draft" := task_text "c" "guest" "pending" not_a_date ]}.

Definition world : World := {| localStorage := guest_storage; requests := [] |}.
Definition fresh_world : World := {| localStorage := ∅; requests := [] |}.

(** The body of a successful migration response. *)
Definition migrated : Js.Value :=
  Js.Object {[ "migrated_tasks" := Js.Number 3; "migrated_courses" := Js.Number 1 ]}.

Definition response_ok : Response := {| ok := true; json := Js.Normal migrated |}.
Definition response_500 : Response :=
  {| ok := false; json := Js.Normal (Js.Object ∅) |}.

End Demo.

(** ** More of the front end *)

(** *** components/Navigation.tsx: what the bar shows *)

Module NavigationBar.

(** [const isLoggedIn = !!localStorage.getItem('access_token')]: the account
    menu, with Logout, is shown when it is true. *)
Definition isLoggedIn (ls : gmap string string) : bool :=
  Storage.truthy (Storage.getItem ls "access_token").

(** [const isGuest = !isLoggedIn && !!localStorage.getItem('guest_session_id')]:
    the Save to Cloud button is shown when it is true. *)
Definition isGuest (ls : gmap string string) : bool :=
  negb (isLoggedIn ls) && Storage.truthy (Storage.getItem ls "guest_session_id").

End NavigationBar.

(** *** App.tsx *)

Module App.


End App.

(** *** pages/Dashboard.tsx: what an upload stores *)

(** Further built-ins of the browser, next to [Runtime]. *)
Class Builtins : Type := {
  (** [JSON.stringify(v)] *)
  JSON_stringify : Js.Value → string;
  (** [`${v}`], the string a value is spliced into a template as; it is also
      the property key of an index. *)
  template : Js.Value → string;
  (** [s.toUpperCase()] *)
  String_toUpperCase : string → string;
}.

(** [s.replace(pattern, '')] for a string pattern: the first occurrence
    is cut out, and only the first. *)
Fixpoint remove_first (pattern s : string) : string :=
  if String.prefix pattern s
  then String.substring (String.length pattern) (String.length s) s
  else match s with
       | EmptyString => EmptyString
       | String c rest => String c (remove_first pattern rest)
       end.

(** [s.replace(/_/g, ' ')] *)
Fixpoint underscores_to_spaces (s : string) : string :=
  match s with
  | EmptyString => EmptyString
  | String c rest =>
      String (if Ascii.eqb c "_" then " "%char else c) (underscores_to_spaces rest)
  end.

Module Upload.
Section WithBuiltins.
Context {bi : Builtins}.

(** [file.name.replace('.pdf', '').replace(/_/g, ' ')] *)
Definition courseName (fileName : string) : string :=
  underscores_to_spaces (remove_first ".pdf" fileName).

(** [{ ...task }]: the own properties of a record; the indices of a string
    or an array; nothing of any other value. *)
Definition spread (task : Js.Value) : gmap string Js.Value :=
  match task with
  | Js.Object fields => fields
  | Js.Array elems =>
      list_to_map
        (imap (λ i v, (template (Js.Number (inject_Z (Z.of_nat i))), v)) elems)
  | Js.Str s =>
      list_to_map
        (imap (λ i c, (template (Js.Number (inject_Z (Z.of_nat i))),
                       Js.Str (String c EmptyString)))
           (list_ascii_of_string s))
  | _ => ∅
  end.

(** The [courseId] left by the [try] around the course request: [net] is
    how the awaited [fetch] settles; [stamp] and [suffix] are what
    [Date.now()] and [Math.random().toString(36).substr(2, 9)] print as. *)
Definition courseId_of (net : Js.Completion Response) (stamp suffix : string)
  : Js.Value :=
  Js.try_catch
    (courseResponse ← net;
     if ok courseResponse then
       courseData ← json courseResponse;
       Js.get courseData "id"
     else mret Js.Null)
    (λ _, Js.Str ("course_" +:+ stamp +:+ "_" +:+ suffix)).

(** The keys [`task_${id}`], [`course_${courseId}`] and
    [`course_${courseId}_tasks`]. *)
Definition taskKey (id : Js.Value) : string := "task_" +:+ template id.
Definition courseKey (courseId : Js.Value) : string :=
  "course_" +:+ template courseId.
Definition courseTasksKey (courseId : Js.Value) : string :=
  "course_" +:+ template courseId +:+ "_tasks".

(** [const enhancedTask = { ...task, user_id: userId, course_id: courseId }] *)
Definition enhancedTask (task : Js.Value) (userId : string)
    (courseId : Js.Value) : Js.Value :=
  Js.Object (<["course_id" := courseId]>
               (<["user_id" := Js.Str userId]> (spread task))).

(** The storage area, and the exception if one was thrown. *)
Definition Stored : Type := gmap string string * option Js.Error.

(** The callback of [uploadData.tasks.forEach], skipped once an exception
    is under way.  ([setItem] is taken to succeed: the quota of the storage
    area is not modelled.) *)
Definition store_task (userId : string) (courseId : Js.Value)
    (state : Stored) (task : Js.Value) : Stored :=
  match state.2 with
  | Some _ => state
  | None =>
      let enhanced := enhancedTask task userId courseId in
      if String.eqb userId "guest" then
        match Js.get task "id" with
        | Js.Normal id =>
            (Storage.setItem (taskKey id) (JSON_stringify enhanced) state.1,
             None)
        | Js.Throw e => (state.1, Some e)
        end
      else state
  end.

(** [uploadData.tasks.map((t) => t.id)] *)
Definition task_ids (tasks : list Js.Value) : Js.Completion (list Js.Value) :=
  foldr (λ t acc, id ← Js.get t "id"; ids ← acc; mret (id :: ids)) (mret []) tasks.

(** The block of [handleFileUpload] that stores the tasks extracted from one
    file, as it acts on the storage area: [tasks] is the array
    [uploadData.tasks], [created_at] what [new Date().toISOString()]
    returns. *)
Definition storeUpload (fileName : string) (tasks : list Js.Value)
    (net : Js.Completion Response) (stamp suffix created_at : string)
    (ls : gmap string string) : Stored :=
  if (0 <? List.length tasks)%nat then
    let courseName := courseName fileName in
    let userId :=
      if Storage.truthy (Storage.getItem ls "access_token")
      then "registered" else "guest" in
    let courseId := courseId_of net stamp suffix in
    let ls1 :=
      if String.eqb userId "guest" && Js.truthy courseId then
        let courseData :=
          Js.Object {[ "id" := courseId;
                       "name" := Js.Str courseName;
                       "code" := Js.Str (String_toUpperCase
                                           (String.substring 0 10 courseName));
                       "description" := Js.Str ("Course from " +:+ fileName);
                       "user_id" := Js.Str "guest";
                       "created_at" := Js.Str created_at ]} in
        Storage.setItem (courseKey courseId) (JSON_stringify courseData) ls
      else ls in
    let stored := foldl (store_task userId courseId) (ls1, None) tasks in
    match stored.2 with
    | Some _ => stored
    | None =>
        if String.eqb userId "guest" && Js.truthy courseId then
          match task_ids tasks with
          | Js.Normal courseTaskIds =>
              (Storage.setItem (courseTasksKey courseId)
                 (JSON_stringify (Js.Array courseTaskIds)) stored.1, None)
          | Js.Throw e => (stored.1, Some e)
          end
        else stored
    end
  else (ls, None).

End WithBuiltins.
End Upload.

(** *** config/api.ts *)

Module Api.

(** [buildApiUrl(endpoint)]: [API_BASE_URL] is the variable
    [VITE_API_BASE_URL] of the build, a string if it is set; an unset one
    is spliced in as [undefined]. *)
Definition buildApiUrl (API_BASE_URL : option string) (endpoint : string)
  : string :=
  let cleanEndpoint :=
    if startsWith "/" endpoint
    then String.substring 1 (String.length endpoint) endpoint
    else endpoint in
  default "undefined" API_BASE_URL +:+ "/" +:+ cleanEndpoint.

(** The guest entries of [API_ENDPOINTS]. *)
Definition GUEST_SESSION : string := "/api/guest/session".
Definition GUEST_MIGRATE (id : string) : string := "/api/guest/migrate/" +:+ id.

End Api.

(** *** The first dashboard: tasks sent to the task endpoint *)

Module FirstDashboard.

(** [s.includes('T')] *)
Definition includes_T (s : string) : bool :=
  existsb (Ascii.eqb "T") (list_ascii_of_string s).

(** The [dueDateTime] computed from [task.due_date]: a string without a
    time part gets the end of the day. *)
Definition dueDateTime (due_date : Js.Value) : Js.Value :=
  match due_date with
  | Js.Str s =>
      if negb (includes_T s) then Js.Str (s +:+ "T23:59:00") else due_date
  | _ => due_date
  end.

End FirstDashboard.

(** *** A concrete upload *)

Module UploadDemo.

(** A task as the upload endpoint extracts it. *)
Definition essay : Js.Value :=
  Js.Object {[ "id" := Js.Str "n1"; "title" := Js.Str "Essay";
               "due_date" := Js.Str Demo.monday; "status" := Js.Str "pending" ]}.

(** The answer of the course endpoint, and the course it names. *)
Definition course_created : Response :=
  {| ok := true; json := Js.Normal (Js.Object {[ "id" := Js.Str "c9" ]}) |}.

Definition essay_stored : Js.Value :=
  Js.Object {[ "id" := Js.Str "n1"; "title" := Js.Str "Essay";
               "due_date" := Js.Str Demo.monday; "status" := Js.Str "pending";
               "user_id" := Js.Str "guest"; "course_id" := Js.Str "c9" ]}.

Definition essay_text : string :=
  "{" +:+ Demo.json_field "id" "n1" +:+ "," +:+ Demo.json_field "title" "Essay"
  +:+ "," +:+ Demo.json_field "due_date" Demo.monday
  +:+ "," +:+ Demo.json_field "status" "pending"
  +:+ "," +:+ Demo.json_field "user_id" "guest"
  +:+ "," +:+ Demo.json_field "course_id" "c9" +:+ "}".

(** [JSON.stringify] on the stored essay; the other values written here are
    not read back, and stand as [{}]. *)
Definition builtins : Builtins := {|
  JSON_stringify v :=
    match string_field v "id", string_field v "course_id" with
    | Some "n1", Some "c9" => essay_text
    | _, _ => "{}"
    end;
  template v :=
    match v with
    | Js.Str s => s
    | Js.Null => "null"
    | Js.Undefined => "undefined"
    | Js.Bool true => "true"
    | Js.Bool false => "false"
    | _ => "[object Object]"
    end;
  String_toUpperCase s := s;
|}.

Definition runtime : Runtime := {|
  JSON_parse text :=
    ({[ essay_text := essay_stored; "{}" := Js.Object ∅ ]}
       : gmap string Js.Value) !! text;
  new_Date v := @new_Date Demo.runtime v;
  LocalTZA := Demo.zone;
|}.

End UploadDemo.

(** *** Vocabulary of the further properties *)

(** Counters added field by field. *)
Definition add_stats (a b : Stats) : Stats :=
  {| completed := completed a + completed b;
     pending := pending a + pending b;
     dueSoon := dueSoon a + dueSoon b |}.

Definition no_stats : Stats := {| completed := 0; pending := 0; dueSoon := 0 |}.

(** A value [computeStats] cannot read the status of: [null], [undefined],
    or a record whose [status] is neither falsy nor a string. *)
Definition has_unreadable_status (task : Js.Value) : bool :=
  match task with
  | Js.Undefined | Js.Null => true
  | Js.Object fields =>
      match fields !! "status" with
      | Some (Js.Str _) | None => false
      | Some v => Js.truthy v
      end
  | _ => false
  end.

(** A record with a truthy [id] whose [user_id] is the string [guest]. *)
Definition is_guest_record (task : Js.Value) : bool :=
  match task with
  | Js.Object fields =>
      Js.truthy (default Js.Undefined (fields !! "id"))
      && Js.strict_eq_str (default Js.Undefined (fields !! "user_id")) "guest"
  | _ => false
  end.

(** What one entry of the storage area contributes to the guest scan. *)
Definition scan_entry {rt : Runtime} (entry : string * string)
  : list Js.Value :=
  if startsWith "task_" entry.1 then
    match JSON_parse (if String.eqb entry.2 EmptyString then "{}" else entry.2) with
    | Some task => if is_guest_record task then [task] else []
    | None => []
    end
  else [].

(** * Properties *)

(** ** Storage and small facts *)

Lemma Storage_truthy_Some (s : string) :
  Storage.truthy (Some s) = true ↔ s ≠ EmptyString.
Proof.
  unfold Storage.truthy. rewrite negb_true_iff.
  destruct (String.eqb_spec s EmptyString); split; congruence.
Qed.

Lemma Storage_truthy_false (item : option string) :
  Storage.truthy item = false ↔ item = None ∨ item = Some EmptyString.
Proof.
  destruct item as [s|]; simpl.
  - rewrite negb_false_iff.
    destruct (String.eqb_spec s EmptyString); subst; split; intros; auto;
      try discriminate.
    destruct H as [H|H]; [discriminate | congruence].
  - split; auto.
Qed.

Lemma Storage_truthy_is_Some (item : option string) :
  Storage.truthy item = true → ∃ s, item = Some s ∧ s ≠ EmptyString.
Proof.
  destruct item as [s|]; [|discriminate].
  intros H. exists s. split; [done|]. by apply Storage_truthy_Some.
Qed.

(** ** The guest session token *)

Section GuestSession.
Import GuestMode.

Lemma createGuestSessionInBackend_any_outcome token net (w : World) :
  createGuestSessionInBackend token net w =
  {| localStorage := localStorage w;
     requests := (requests w ++ [registration token])%list |}.
Proof. unfold createGuestSessionInBackend. by destruct net. Qed.

Lemma getOrCreate_existing uuid net (w : World) token :
  getGuestSessionId w = Some token → token ≠ EmptyString →
  getOrCreateGuestSession uuid net w = (token, w).
Proof.
  unfold getGuestSessionId, getOrCreateGuestSession. intros -> Hne.
  apply Storage_truthy_Some in Hne. by rewrite Hne.
Qed.

Lemma getOrCreate_absent uuid net (w : World) :
  Storage.truthy (getGuestSessionId w) = false →
  getOrCreateGuestSession uuid net w =
  ("guest-" +:+ uuid,
   {| localStorage :=
        <["guest_session_id" := "guest-" +:+ uuid]> (localStorage w);
      requests := (requests w ++ [registration ("guest-" +:+ uuid)])%list |}).
Proof.
  unfold getGuestSessionId, getOrCreateGuestSession. intros ->. simpl.
  by rewrite createGuestSessionInBackend_any_outcome.
Qed.

(** A call leaves a non-empty token in the storage area and returns it. *)
Lemma getOrCreate_token_stored uuid net (w : World) :
  let r := getOrCreateGuestSession uuid net w in
  getGuestSessionId r.2 = Some r.1 ∧ r.1 ≠ EmptyString.
Proof.
  destruct (Storage.truthy (getGuestSessionId w)) eqn:Ht.
  - destruct (Storage_truthy_is_Some _ Ht) as (s & Hs & Hne).
    rewrite (getOrCreate_existing _ _ _ s); done.
  - rewrite getOrCreate_absent; [|done]. simpl. split; [|done].
    unfold getGuestSessionId, Storage.getItem. simpl.
    apply lookup_insert_eq.
Qed.

(** C6. [getOrCreateGuestSession] is idempotent.  A token found in the
    storage area is returned as it is, with no request and no change of
    state.  With no token, the token [guest-<uuid>] is stored and returned
    and one registration request is issued, however that request settles.
    A second call right after the first returns the same token and changes
    nothing, so both calls together issue at most one registration. *)
Theorem getOrCreateGuestSession_idempotent
    (uuid1 uuid2 : string) (net1 net2 : Js.Completion Response) (w : World) :
  let first := getOrCreateGuestSession uuid1 net1 w in
  let second := getOrCreateGuestSession uuid2 net2 first.2 in
  (∀ token, getGuestSessionId w = Some token → token ≠ EmptyString →
     first = (token, w))
  ∧ (Storage.truthy (getGuestSessionId w) = false →
     first.1 = "guest-" +:+ uuid1
     ∧ localStorage first.2 =
         <["guest_session_id" := "guest-" +:+ uuid1]> (localStorage w)
     ∧ requests first.2 =
         (requests w ++ [registration ("guest-" +:+ uuid1)])%list)
  ∧ getGuestSessionId first.2 = Some first.1
  ∧ second = first
  ∧ (List.length (requests second.2) ≤ List.length (requests w) + 1)%nat.
Proof.
  intros first second.
  assert (Hstored := getOrCreate_token_stored uuid1 net1 w).
  fold first in Hstored. destruct Hstored as [Hget Hne].
  assert (Hsecond : second = first).
  { unfold second. rewrite (getOrCreate_existing _ _ _ first.1); try done.
    by destruct first. }
  split_and!; try done.
  - intros token Htok Htne. by apply getOrCreate_existing.
  - intros Habs. unfold first. by rewrite getOrCreate_absent.
  - rewrite Hsecond. unfold first.
    destruct (Storage.truthy (getGuestSessionId w)) eqn:Ht.
    + destruct (Storage_truthy_is_Some _ Ht) as (s & Hs & Hsne).
      rewrite (getOrCreate_existing _ _ _ s) by done. simpl. lia.
    + rewrite getOrCreate_absent; [|done]. simpl.
      rewrite length_app. simpl. lia.
Qed.

Lemma getOrCreateGuestSession_idempotent_witness :
  GuestMode.getOrCreateGuestSession "u1" (Js.Throw Js.TypeError) Demo.world
    = ("guest-T1", Demo.world)
  ∧ (GuestMode.getOrCreateGuestSession "u1" (Js.Throw Js.TypeError)
       Demo.fresh_world).1 = "guest-u1".
Proof.
  split.
  - refine (proj1 (getOrCreateGuestSession_idempotent "u1" "u2"
              (Js.Throw Js.TypeError) (Js.Throw Js.TypeError) Demo.world)
              "guest-T1" _ _).
    + vm_compute. reflexivity.
    + discriminate.
  - refine (proj1 (proj1 (proj2 (getOrCreateGuestSession_idempotent "u1" "u2"
              (Js.Throw Js.TypeError) (Js.Throw Js.TypeError)
              Demo.fresh_world)) _)).
    vm_compute. reflexivity.
Defined.

End GuestSession.

(** ** Migration of the guest data *)

Section Migration.
Import GuestMode.

(** What [migrateGuestData] returns and stores depends on the storage area
    only, not on the requests issued before. *)
Lemma migrateGuestData_storage_only userId net (w1 w2 : World) :
  localStorage w1 = localStorage w2 →
  (migrateGuestData userId net w1).1 = (migrateGuestData userId net w2).1
  ∧ localStorage (migrateGuestData userId net w1).2
    = localStorage (migrateGuestData userId net w2).2.
Proof.
  intros Heq. unfold migrateGuestData, getGuestSessionId. rewrite Heq.
  destruct (Storage.truthy _); simpl; [|done].
  destruct net as [resp|e]; simpl; [|done].
  destruct (ok resp); simpl; [|done].
  destruct (json resp); simpl; [|done].
  by rewrite Heq.
Qed.

(** C5. When the migrate call fails, by a network error thrown by [fetch]
    or by a response that is not ok, [migrateGuestData] returns
    [{migrated_tasks: 0, migrated_courses: 0}] and the storage area is what
    it was: the guest token and every task and course key are still there
    with their values.  A retry from the state left behind then does what
    it would have done from the start. *)
Theorem migrateGuestData_failure_is_safe
    (userId : string) (net : Js.Completion Response) (w : World) :
  (∃ e, net = Js.Throw e) ∨ (∃ resp, net = Js.Normal resp ∧ ok resp = false) →
  let attempt := migrateGuestData userId net w in
  attempt.1 = no_migration
  ∧ localStorage attempt.2 = localStorage w
  ∧ ∀ userId' net',
      (migrateGuestData userId' net' attempt.2).1
        = (migrateGuestData userId' net' w).1
      ∧ localStorage (migrateGuestData userId' net' attempt.2).2
        = localStorage (migrateGuestData userId' net' w).2.
Proof.
  intros Hfail attempt.
  assert (Hres : attempt.1 = no_migration ∧ localStorage attempt.2 = localStorage w).
  { unfold attempt, migrateGuestData.
    destruct (Storage.truthy (getGuestSessionId w)); simpl; [|done].
    destruct Hfail as [[e ->]|(resp & -> & Hok)]; simpl; [done|].
    by rewrite Hok. }
  destruct Hres as [Hr Hs]. split_and!; try done.
  intros userId' net'. by apply migrateGuestData_storage_only.
Qed.

Lemma migrateGuestData_failure_is_safe_witness :
  (migrateGuestData "user-1" (Js.Throw Js.TypeError) Demo.world).1 = no_migration
  ∧ localStorage (migrateGuestData "user-1" (Js.Normal Demo.response_500)
                    Demo.world).2 = Demo.guest_storage.
Proof.
  split.
  - refine (proj1 (migrateGuestData_failure_is_safe "user-1"
              (Js.Throw Js.TypeError) Demo.world _)).
    left. by exists Js.TypeError.
  - refine (proj1 (proj2 (migrateGuestData_failure_is_safe "user-1"
              (Js.Normal Demo.response_500) Demo.world _))).
    right. exists Demo.response_500. split; reflexivity.
Defined.

(** C2, as the code has it. When the migrate call returns an ok response
    whose body parses, [migrateGuestData] removes the guest token, and only
    it: every other key of the storage area, the task and course keys
    among them, keeps its value.  It returns the body of the response,
    which carries the counts the remote reports. *)
Theorem migrateGuestData_success_clears_token_only
    (userId token : string) (resp : Response) (data : Js.Value) (w : World) :
  getGuestSessionId w = Some token → token ≠ EmptyString →
  ok resp = true → json resp = Js.Normal data →
  let done_ := migrateGuestData userId (Js.Normal resp) w in
  done_.1 = data
  ∧ getGuestSessionId done_.2 = None
  ∧ (∀ key, key ≠ "guest_session_id" →
       localStorage done_.2 !! key = localStorage w !! key).
Proof.
  intros Htok Hne Hok Hjson. unfold migrateGuestData.
  rewrite Htok. apply Storage_truthy_Some in Hne. rewrite Hne.
  simpl. rewrite Hok, Hjson. simpl. split_and!; [done|..].
  - unfold getGuestSessionId, Storage.getItem, Storage.removeItem. simpl.
    apply lookup_delete_eq.
  - intros key Hkey. unfold Storage.removeItem.
    by rewrite lookup_delete_ne.
Qed.

Lemma migrateGuestData_success_clears_token_only_witness :
  (migrateGuestData "user-1" (Js.Normal Demo.response_ok) Demo.world).1
  = Demo.migrated.
Proof.
  refine (proj1 (migrateGuestData_success_clears_token_only "user-1"
            "guest-T1" Demo.response_ok Demo.migrated Demo.world _ _ _ _)).
  - vm_compute. reflexivity.
  - discriminate.
  - reflexivity.
  - reflexivity.
Defined.

(** C2 as stated does not hold: after a successful migration of the demo
    state the guest data keys are not all gone, [task_a] is still in the
    storage area. *)
Lemma migrateGuestData_success_keeps_task_keys :
  let after :=
    localStorage
      (migrateGuestData "user-1" (Js.Normal Demo.response_ok) Demo.world).2 in
  ¬ (∀ key, guest_data_key key = true → after !! key = None).
Proof.
  intros after Hall. specialize (Hall "task_a" eq_refl).
  vm_compute in Hall. discriminate.
Qed.

End Migration.

(** ** Logout *)

Section Logout.

(** [handleLogout] removes the three account keys and nothing else. *)
Lemma handleLogout_lookup (ls : gmap string string) (key : string) :
  Navigation.handleLogout ls !! key =
  if bool_decide (key ∈ ["access_token"; "user_email"; "user_id"])
  then None else ls !! key.
Proof.
  unfold Navigation.handleLogout, Storage.removeItem.
  case_bool_decide as Hin.
  - repeat (apply elem_of_cons in Hin as [->|Hin]);
      [ .. | by apply elem_of_nil in Hin ];
      repeat first [ apply lookup_delete_eq | rewrite lookup_delete_ne by done ].
  - rewrite !lookup_delete_ne; [done|..];
      intros <-; apply Hin; repeat constructor.
Qed.

Lemma handleLogout_keeps_guest_data (ls : gmap string string) (key : string) :
  guest_data_key key = true → Navigation.handleLogout ls !! key = ls !! key.
Proof.
  intros Hg. rewrite handleLogout_lookup. case_bool_decide as Hin; [|done].
  repeat (apply elem_of_cons in Hin as [->|Hin]); try discriminate Hg.
  by apply elem_of_nil in Hin.
Qed.

(** C1, at the scenario of the cleanup script: three guest tasks, a course
    with its task index and the guest token, and a signed-in user.  After
    [handleLogout] the account keys are gone, and each of the six guest
    keys is still there with its value, so that [checkLocalStorageData]
    counts six guest keys where the script expects none. *)
Theorem handleLogout_leaves_guest_data :
  let after := Navigation.handleLogout Demo.storage in
  after !! "access_token" = None
  ∧ Forall (λ key, guest_data_key key = true
                   ∧ is_Some (after !! key)
                   ∧ after !! key = Demo.storage !! key)
      ["task_a"; "task_b"; "task_c"; "course_x"; "course_x_tasks";
       "guest_session_id"]
  ∧ LogoutCleanupTest.checkLocalStorageData after = 6%nat.
Proof.
  intros after. split_and!.
  - unfold after. by rewrite handleLogout_lookup.
  - repeat constructor;
      first [ by apply handleLogout_keeps_guest_data
            | unfold after; rewrite handleLogout_keeps_guest_data by done;
              vm_compute; eauto ].
  - vm_compute. reflexivity.
Qed.

End Logout.

(** ** Calendar arithmetic *)

(** [YearFromTime] is the year of the day: the largest year that starts no
    later. *)
Lemma YearFromTime_spec (t : Z) :
  Date.DayFromYear (Date.YearFromTime t) ≤ Date.Day t
  ∧ Date.Day t < Date.DayFromYear (Date.YearFromTime t + 1).
Proof.
  unfold Date.YearFromTime. generalize (Date.Day t). intros d.
  unfold Date.DayFromYear.
  repeat case_match; rewrite ?Z.leb_le, ?Z.leb_gt in *;
    Z.div_mod_to_equations; lia.
Qed.

Lemma DayFromYear_succ (y : Z) :
  Date.DayFromYear (y + 1) = Date.DayFromYear y + Date.DaysInYear y.
Proof.
  unfold Date.DayFromYear, Date.DaysInYear.
  repeat case_match;
    rewrite ?negb_true_iff, ?negb_false_iff, ?Z.eqb_eq, ?Z.eqb_neq in *;
    Z.div_mod_to_equations; lia.
Qed.

Lemma DayWithinYear_range (t : Z) :
  0 ≤ Date.DayWithinYear t < 365 + Date.InLeapYear t.
Proof.
  pose proof (YearFromTime_spec t) as [H1 H2].
  rewrite DayFromYear_succ in H2.
  unfold Date.DayWithinYear, Date.InLeapYear.
  assert (Date.DaysInYear (Date.YearFromTime t) = 365
          ∨ Date.DaysInYear (Date.YearFromTime t) = 366) as [Hd|Hd].
  { unfold Date.DaysInYear. repeat case_match; auto. }
  all: rewrite Hd in *; simpl; lia.
Qed.

Lemma MonthFromTime_range (t : Z) : 0 ≤ Date.MonthFromTime t ≤ 11.
Proof. unfold Date.MonthFromTime. repeat case_match; lia. Qed.

Lemma DateFromTime_range (t : Z) : 1 ≤ Date.DateFromTime t ≤ 31.
Proof.
  pose proof (DayWithinYear_range t) as Hd.
  unfold Date.DateFromTime, Date.MonthFromTime.
  assert (Date.InLeapYear t = 0 ∨ Date.InLeapYear t = 1) as [Hl|Hl].
  { unfold Date.InLeapYear. case_match; auto. }
  all: rewrite Hl in *;
    repeat case_match; rewrite ?Z.ltb_lt, ?Z.ltb_ge in *; simpl; lia.
Qed.

(** 2024-02-29T12:00:00Z, a leap day, and the last millisecond of 1969. *)
Example date_fields_leap_day :
  (Date.YearFromTime 1709208000000, Date.MonthFromTime 1709208000000,
   Date.DateFromTime 1709208000000) = (2024, 1, 29).
Proof. reflexivity. Qed.

Example date_fields_before_epoch :
  (Date.YearFromTime (-1), Date.MonthFromTime (-1), Date.DateFromTime (-1))
  = (1969, 11, 31).
Proof. reflexivity. Qed.

(** Moving the day of the month by [n] moves the day number by [n]. *)
Lemma MakeDay_DateFromTime (t n : Z) :
  Date.MakeDay (Date.YearFromTime t) (Date.MonthFromTime t)
    (Date.DateFromTime t + n) = Date.Day t + n.
Proof.
  pose proof (MonthFromTime_range t) as Hm.
  unfold Date.MakeDay, Date.DateFromTime, Date.DayWithinYear.
  rewrite Z.div_small, Z.mod_small by lia.
  rewrite Z.add_0_r. fold (Date.InLeapYear t). lia.
Qed.

Lemma MakeDate_Day (t n : Z) :
  Date.MakeDate (Date.Day t + n) (Date.TimeWithinDay t) = t + n * Date.msPerDay.
Proof.
  unfold Date.MakeDate, Date.Day, Date.TimeWithinDay, Date.msPerDay.
  Z.div_mod_to_equations. lia.
Qed.

Section Calendar.
Context {rt : Runtime}.

(** [d.setDate(d.getDate() + n)] keeps the local time of day and moves the
    local calendar day by [n]. *)
Lemma setDate_getDate (now n : Z) :
  setDate now (getDate now + n) = Date.TimeClip (add_calendar_days now n).
Proof.
  unfold setDate, getDate, add_calendar_days.
  by rewrite MakeDay_DateFromTime, MakeDate_Day.
Qed.

Lemma dueSoonThreshold_in_range (now : Z) :
  Date_in_range (add_calendar_days now 7) →
  Dashboard.dueSoonThreshold now = Some (add_calendar_days now 7).
Proof.
  intros Hr. unfold Dashboard.dueSoonThreshold. rewrite setDate_getDate.
  unfold Date.TimeClip. apply Z.leb_le in Hr. by rewrite Hr.
Qed.

(** Beyond the range of [Date] the threshold is an invalid date. *)
Lemma dueSoonThreshold_out_of_range (now : Z) :
  ¬ Date_in_range (add_calendar_days now 7) →
  Dashboard.dueSoonThreshold now = None.
Proof.
  intros Hr. unfold Dashboard.dueSoonThreshold. rewrite setDate_getDate.
  unfold Date.TimeClip. case_match; [|done].
  exfalso. apply Hr. by apply Z.leb_le.
Qed.
End Calendar.

(** In the demo zone the week that follows [Demo.now] holds the change to
    summer time: seven calendar days are one hour short of 7 x 24 hours. *)
Example add_calendar_days_across_dst :
  @add_calendar_days Demo.runtime Demo.now 7
  = Demo.now + 7 * Date.msPerDay - 3600000.
Proof. reflexivity. Qed.

Example add_calendar_days_without_dst :
  @add_calendar_days Demo.runtime_utc Demo.now 7 = Demo.now + 7 * Date.msPerDay.
Proof. reflexivity. Qed.

(** ** Letter case *)

Lemma nat_of_ascii_toLowerCase (a : ascii) :
  nat_of_ascii (ascii_toLowerCase a) =
  if (65 <=? nat_of_ascii a)%nat && (nat_of_ascii a <=? 90)%nat
  then (nat_of_ascii a + 32)%nat else nat_of_ascii a.
Proof.
  unfold ascii_toLowerCase.
  destruct (Nat.leb_spec 65 (nat_of_ascii a)),
           (Nat.leb_spec (nat_of_ascii a) 90); simpl; try done.
  apply nat_ascii_embedding. lia.
Qed.

Lemma ascii_eqb_nat (a b : ascii) :
  Ascii.eqb a b = (nat_of_ascii a =? nat_of_ascii b)%nat.
Proof.
  destruct (Ascii.eqb_spec a b) as [->|Hne].
  - by rewrite Nat.eqb_refl.
  - symmetry. apply Nat.eqb_neq. intros Heq. apply Hne.
    by rewrite <- (ascii_nat_embedding a), <- (ascii_nat_embedding b), Heq.
Qed.

(** Against a code unit that is no upper-case letter, being the same letter
    is being equal after lowering. *)
Lemma same_letter_toLowerCase (a b : ascii) :
  ascii_toLowerCase b = b →
  same_letter a b = Ascii.eqb (ascii_toLowerCase a) b.
Proof.
  intros Hb. apply (f_equal nat_of_ascii) in Hb.
  rewrite nat_of_ascii_toLowerCase in Hb.
  rewrite ascii_eqb_nat, nat_of_ascii_toLowerCase. unfold same_letter.
  revert Hb. generalize (nat_of_ascii a) (nat_of_ascii b). intros x y.
  destruct (Nat.leb_spec 65 x), (Nat.leb_spec x 90),
           (Nat.leb_spec 65 y), (Nat.leb_spec y 90); simpl; intros Hb;
    repeat match goal with
           | |- context [(?m =? ?n)%nat] => destruct (Nat.eqb_spec m n)
           end; simpl; try done; lia.
Qed.

Lemma eqb_ignore_case_toLowerCase (s t : string) :
  toLowerCase t = t →
  eqb_ignore_case s t = String.eqb (toLowerCase s) t.
Proof.
  revert t. induction s as [|a s IH]; intros [|b t] Ht; simpl; try done.
  injection Ht as Hb Ht.
  by rewrite same_letter_toLowerCase, IH.
Qed.

Lemma eqb_completed (s : string) :
  String.eqb (toLowerCase s) "completed" = eqb_ignore_case s "completed".
Proof. symmetry. by apply eqb_ignore_case_toLowerCase. Qed.

Example Completed_is_completed : eqb_ignore_case "Completed" "completed" = true.
Proof. reflexivity. Qed.

Example COMPLETED_is_completed : eqb_ignore_case "COMPLETED" "completed" = true.
Proof. reflexivity. Qed.

Example complete_is_not_completed : eqb_ignore_case "complete" "completed" = false.
Proof. reflexivity. Qed.

(** ** [computeStats] *)

Section ComputeStats.
Context {rt : Runtime}.
Import Dashboard.

Lemma status_of_StoredTask (task : Js.Value) :
  StoredTask task = true →
  status_of task
  = Js.Normal (toLowerCase (default EmptyString (string_field task "status"))).
Proof.
  destruct task as [| | | | |?|fields]; try discriminate. simpl.
  intros Ht. apply andb_prop in Ht as [_ Hstatus].
  unfold status_of. simpl.
  destruct (fields !! "status") as [[| | | |s| |]|]; try discriminate; try done.
  simpl. unfold Js.or_else. simpl.
  destruct (String.eqb_spec s EmptyString) as [->|]; done.
Qed.

Lemma completed_StoredTask (task : Js.Value) :
  String.eqb (toLowerCase (default EmptyString (string_field task "status")))
    "completed" = has_completed_status task.
Proof.
  unfold has_completed_status.
  destruct (string_field task "status") as [s|]; [|done].
  apply eqb_completed.
Qed.

Lemma due_date_StoredTask (task : Js.Value) :
  StoredTask task = true →
  ∃ v, Js.get task "due_date" = Js.Normal v
       ∧ (if Js.truthy v then new_Date v else None) = due_timestamp task.
Proof.
  destruct task as [| | | | |?|fields]; try discriminate. simpl.
  intros Ht. apply andb_prop in Ht as [Ht _]. apply andb_prop in Ht as [_ Hdue].
  unfold due_timestamp. simpl.
  destruct (fields !! "due_date") as [[| | | |s| |]|]; try discriminate;
    eexists; (split; [reflexivity|]); simpl; try done.
  by destruct (String.eqb s EmptyString).
Qed.

(** What the callback does with a task of the declared type. *)
Lemma count_task_StoredTask now limit (acc : Stats) (task : Js.Value) :
  StoredTask task = true →
  count_task now limit acc task = Js.Normal
    (if has_completed_status task
     then {| completed := S (completed acc); pending := pending acc;
             dueSoon := dueSoon acc |}
     else {| completed := completed acc; pending := S (pending acc);
             dueSoon := (if due_between now limit task then 1 else 0)
                        + dueSoon acc |}).
Proof.
  intros Ht. unfold count_task.
  rewrite (status_of_StoredTask _ Ht). simpl.
  rewrite completed_StoredTask.
  destruct (has_completed_status task); [done|].
  destruct (due_date_StoredTask _ Ht) as (v & -> & Hdue). simpl.
  unfold due_between. rewrite <- Hdue.
  destruct (Js.truthy v); [|done].
  destruct (new_Date v) as [d|]; simpl; [|done].
  unfold Date.ge. simpl.
  by destruct ((now <=? d) && _).
Qed.

Lemma forEach_StoredTask now limit (tasks : list Js.Value) (acc : Stats) :
  Forall (λ task, StoredTask task = true) tasks →
  forEach (count_task now limit) tasks acc = Js.Normal
    {| completed := count has_completed_status tasks + completed acc;
       pending := count (λ t, negb (has_completed_status t)) tasks + pending acc;
       dueSoon := count (λ t, negb (has_completed_status t)
                              && due_between now limit t) tasks
                  + dueSoon acc |}.
Proof.
  intros Hall. revert acc.
  induction Hall as [|task rest Ht _ IH]; intros acc; simpl.
  - by destruct acc.
  - rewrite (count_task_StoredTask _ _ _ _ Ht). simpl.
    destruct (has_completed_status task); simpl; rewrite IH; simpl;
      f_equal; f_equal; lia.
Qed.

(** On tasks of the declared type [computeStats] returns, and its counters
    are the numbers of tasks of each kind. *)
Lemma computeStats_counts now (tasks : list Js.Value) :
  Forall (λ task, StoredTask task = true) tasks →
  computeStats now tasks = Js.Normal
    {| completed := count has_completed_status tasks;
       pending := count (λ t, negb (has_completed_status t)) tasks;
       dueSoon := count (λ t, negb (has_completed_status t)
                              && due_between now (dueSoonThreshold now) t)
                    tasks |}.
Proof.
  intros Hall. unfold computeStats. rewrite forEach_StoredTask by done.
  simpl. f_equal. f_equal; lia.
Qed.

Lemma count_ext (p q : Js.Value → bool) (tasks : list Js.Value) :
  (∀ t, p t = q t) → count p tasks = count q tasks.
Proof. intros H. induction tasks; simpl; [done|]. by rewrite H, IHtasks. Qed.

Lemma count_app (p : Js.Value → bool) (l1 l2 : list Js.Value) :
  count p (l1 ++ l2) = (count p l1 + count p l2)%nat.
Proof. induction l1; simpl; [done|]. rewrite IHl1. lia. Qed.

Lemma count_negb (p : Js.Value → bool) (tasks : list Js.Value) :
  (count p tasks + count (λ t, negb (p t)) tasks)%nat = List.length tasks.
Proof. induction tasks as [|t ? IH]; simpl; [done|]. destruct (p t); simpl; lia. Qed.

Lemma count_andb_le (p q : Js.Value → bool) (tasks : list Js.Value) :
  (count (λ t, p t && q t) tasks ≤ count p tasks)%nat.
Proof.
  induction tasks as [|t ? IH]; simpl; [done|].
  destruct (p t), (q t); simpl; lia.
Qed.

Lemma due_between_week now (task : Js.Value) :
  due_between now (Some (add_calendar_days now 7)) task
  = due_within_week now task.
Proof. unfold due_between, due_within_week. by destruct (due_timestamp task). Qed.
End ComputeStats.

(** ** The counters, for any list of values *)

Section Counters.
Context {rt : Runtime}.
Import Dashboard.

(** A task moves exactly one of [completed] and [pending], by one, and
    [dueSoon] only along with [pending]. *)
Lemma count_task_cases now limit (acc acc' : Stats) (task : Js.Value) :
  count_task now limit acc task = Js.Normal acc' →
  (completed acc' = S (completed acc) ∧ pending acc' = pending acc
   ∧ dueSoon acc' = dueSoon acc)
  ∨ (completed acc' = completed acc ∧ pending acc' = S (pending acc)
     ∧ (dueSoon acc' = dueSoon acc ∨ dueSoon acc' = S (dueSoon acc))).
Proof.
  unfold count_task. destruct (status_of task) as [status|]; simpl; [|done].
  destruct (String.eqb status "completed").
  - intros [= <-]. simpl. auto.
  - destruct (Js.get task "due_date") as [due|]; simpl; [|done].
    repeat case_match; intros [= <-]; simpl; auto.
Qed.

Lemma forEach_partition now limit (tasks : list Js.Value) (acc s : Stats) :
  forEach (count_task now limit) tasks acc = Js.Normal s →
  (completed s + pending s = completed acc + pending acc + List.length tasks)%nat
  ∧ (dueSoon s + pending acc ≤ pending s + dueSoon acc)%nat.
Proof.
  revert acc. induction tasks as [|task rest IH]; intros acc; simpl.
  - intros [= <-]. lia.
  - destruct (count_task now limit acc task) as [acc'|] eqn:Hstep; simpl;
      [|done].
    intros Hrest. apply IH in Hrest.
    apply count_task_cases in Hstep. lia.
Qed.

(** C9. The counters of [computeStats] partition the list: [completed] and
    [pending] add up to the number of tasks, and [dueSoon] is at most
    [pending].  This holds of whatever [computeStats] returns; and on
    tasks of the declared type [StoredTask] it does return. *)
Theorem computeStats_partition now (tasks : list Js.Value) :
  (∀ s, computeStats now tasks = Js.Normal s →
     (completed s + pending s = List.length tasks)%nat
     ∧ (dueSoon s ≤ pending s)%nat)
  ∧ (Forall (λ task, StoredTask task = true) tasks →
     ∃ s, computeStats now tasks = Js.Normal s).
Proof.
  split.
  - intros s Hs. apply forEach_partition in Hs. cbn [completed pending dueSoon] in Hs. lia.
  - intros Hall. eexists. by apply computeStats_counts.
Qed.

(** C10. [computeStats] matches the status [completed] in any letter case:
    on tasks of the declared type, [completed] is the number of tasks whose
    status reads [completed] up to case, and [pending] the number of all
    the others, those without a status among them. *)
Theorem computeStats_completed_ignores_case now (tasks : list Js.Value) :
  Forall (λ task, StoredTask task = true) tasks →
  ∃ s, computeStats now tasks = Js.Normal s
       ∧ completed s = count has_completed_status tasks
       ∧ pending s = count (λ t, negb (has_completed_status t)) tasks.
Proof. intros Hall. eexists. split; [by apply computeStats_counts|done]. Qed.

(** C8. A task that is not completed and whose [due_date] is absent, or
    does not parse to a date, counts as pending and not as due soon:
    wherever it stands in a list of tasks of the declared type,
    [computeStats] returns, with one more [pending] than for the list
    without it, and the same [completed] and [dueSoon]. *)
Theorem computeStats_unparsable_due_date now
    (before after : list Js.Value) (task : Js.Value) :
  Forall (λ task, StoredTask task = true) (before ++ task :: after) →
  has_completed_status task = false →
  (string_field task "due_date" = None
   ∨ ∃ text, string_field task "due_date" = Some text
             ∧ new_Date (Js.Str text) = None) →
  ∃ without with_,
    computeStats now (before ++ after) = Js.Normal without
    ∧ computeStats now (before ++ task :: after) = Js.Normal with_
    ∧ completed with_ = completed without
    ∧ pending with_ = S (pending without)
    ∧ dueSoon with_ = dueSoon without.
Proof.
  intros Hall Hpending Hdue.
  assert (Hall' : Forall (λ task, StoredTask task = true) (before ++ after)).
  { apply Forall_app in Hall as [Hb Ha]. apply Forall_app. split; [done|].
    by apply Forall_cons in Ha as [_ Ha]. }
  assert (Hnone : due_timestamp task = None).
  { unfold due_timestamp. destruct Hdue as [->|(text & -> & Hparse)]; [done|].
    by destruct (String.eqb text EmptyString). }
  do 2 eexists.
  split; [by apply computeStats_counts|].
  split; [by apply computeStats_counts|].
  generalize (dueSoonThreshold now). intros limit.
  cbn [completed pending dueSoon]. rewrite !count_app. cbn [count].
  unfold due_between. rewrite Hpending, Hnone. simpl. lia.
Qed.

(** C4. A pending task is due soon exactly when its due timestamp lies in
    [[now, now + 7 calendar days]], ends included.  The upper end is the
    local wall-clock time of [now] seven days later on the calendar, which
    is what [setDate(getDate() + 7)] computes.  On tasks of the declared
    type, [dueSoon] is the number of tasks that are not completed and are
    due within that window; a single pending task due at [d] is counted
    according to [now <= d <= now + 7 days], so at [now + 7 days] it is
    (that instant is not before [now]) and one second later it is not; a
    completed task is not counted, whatever its due date. *)
Theorem computeStats_due_soon_window (now : Z) :
  Date_in_range (add_calendar_days now 7) →
  dueSoonThreshold now = Some (add_calendar_days now 7)
  ∧ (∀ tasks, Forall (λ task, StoredTask task = true) tasks →
       ∃ s, computeStats now tasks = Js.Normal s
            ∧ dueSoon s = count (pending_and_due_within_week now) tasks)
  ∧ (∀ task d, StoredTask task = true → has_completed_status task = false →
       due_timestamp task = Some d →
       computeStats now [task] = Js.Normal
         {| completed := 0; pending := 1;
            dueSoon := if bool_decide (now ≤ d ≤ add_calendar_days now 7)
                       then 1 else 0 |})
  ∧ (∀ task, StoredTask task = true → has_completed_status task = true →
       computeStats now [task] = Js.Normal
         {| completed := 1; pending := 0; dueSoon := 0 |}).
Proof.
  intros Hrange. pose proof (dueSoonThreshold_in_range now Hrange) as Hlimit.
  split_and!; [exact Hlimit|..].
  - intros tasks Hall. eexists. split; [by apply computeStats_counts|].
    cbn [dueSoon]. rewrite Hlimit. apply count_ext. intros t.
    unfold pending_and_due_within_week. by rewrite due_between_week.
  - intros task d Ht Hpending Hd.
    rewrite computeStats_counts by (by repeat constructor).
    rewrite Hlimit. cbn [count]. rewrite Hpending.
    unfold due_between. rewrite Hd. cbn [negb andb Date.le].
    case_bool_decide as Hin.
    + destruct Hin as [H1 H2].
      apply Z.leb_le in H1, H2. by rewrite H1, H2.
    + destruct (Z.leb_spec now d), (Z.leb_spec d (add_calendar_days now 7));
        cbn [andb]; try reflexivity. exfalso. apply Hin. lia.
  - intros task Ht Hcompleted.
    rewrite computeStats_counts by (by repeat constructor).
    cbn [count]. by rewrite Hcompleted.
Qed.

End Counters.

(** *** The counters on the demo tasks *)

Section CountersDemo.
Import Dashboard.
#[local] Existing Instance Demo.runtime.

Lemma computeStats_partition_witness :
  ∃ s, computeStats Demo.now [Demo.task_a; Demo.task_b; Demo.task_c]
       = Js.Normal s
       ∧ (completed s + pending s = 3)%nat ∧ (dueSoon s ≤ pending s)%nat.
Proof.
  destruct (proj2 (computeStats_partition Demo.now
                     [Demo.task_a; Demo.task_b; Demo.task_c]))
    as [s Hs].
  - repeat constructor.
  - exists s. split; [exact Hs|].
    exact (proj1 (computeStats_partition Demo.now _) s Hs).
Defined.

Lemma computeStats_completed_ignores_case_witness :
  ∃ s, computeStats Demo.now [Demo.task_a; Demo.task_b; Demo.task_c]
       = Js.Normal s
       ∧ completed s = 1%nat ∧ pending s = 2%nat.
Proof.
  apply (computeStats_completed_ignores_case Demo.now
           [Demo.task_a; Demo.task_b; Demo.task_c]).
  repeat constructor.
Defined.

Lemma computeStats_unparsable_due_date_witness :
  ∃ without with_,
    computeStats Demo.now [Demo.task_a; Demo.task_b] = Js.Normal without
    ∧ computeStats Demo.now [Demo.task_a; Demo.task_c; Demo.task_b]
      = Js.Normal with_
    ∧ completed with_ = completed without
    ∧ pending with_ = S (pending without)
    ∧ dueSoon with_ = dueSoon without.
Proof.
  apply (computeStats_unparsable_due_date Demo.now
           [Demo.task_a] [Demo.task_b] Demo.task_c).
  - repeat constructor.
  - reflexivity.
  - right. exists Demo.not_a_date. split; reflexivity.
Defined.

Lemma computeStats_due_soon_window_witness :
  dueSoonThreshold Demo.now = Some (Demo.now + 7 * Date.msPerDay - 3600000)
  ∧ computeStats Demo.now [Demo.task_a]
    = Js.Normal {| completed := 0; pending := 1; dueSoon := 1 |}
  ∧ computeStats Demo.now [Demo.task_d]
    = Js.Normal {| completed := 0; pending := 1; dueSoon := 0 |}
  ∧ computeStats Demo.now [Demo.task_b]
    = Js.Normal {| completed := 1; pending := 0; dueSoon := 0 |}.
Proof.
  assert (Hrange : Date_in_range (add_calendar_days Demo.now 7)).
  { unfold Date_in_range. by vm_compute. }
  destruct (computeStats_due_soon_window Demo.now Hrange)
    as (Hlimit & _ & Hpending & Hcompleted).
  split_and!.
  - exact Hlimit.
  - exact (Hpending Demo.task_a 1712228400000 eq_refl eq_refl eq_refl).
  - exact (Hpending Demo.task_d 1712228401000 eq_refl eq_refl eq_refl).
  - exact (Hcompleted Demo.task_b eq_refl eq_refl).
Defined.

End CountersDemo.

(** ** The local scan *)

Section LocalScan.
Context {rt : Runtime}.
Import Dashboard.

Lemma Storage_key_stored (ls : gmap string string) (i : nat) (key : string) :
  Storage.key ls i = Some key → ∃ text, ls !! key = Some text.
Proof.
  unfold Storage.key, Storage.keys. rewrite list_lookup_fmap.
  destruct (map_to_list ls !! i) as [[k text]|] eqn:Hi; [|done].
  intros [= <-]. exists text.
  apply elem_of_map_to_list. by eapply list_elem_of_lookup_2.
Qed.

Lemma isGuestTask_owner (task : Js.Value) :
  isGuestTask task = Js.Normal true →
  string_field task "user_id" = Some "guest".
Proof.
  unfold isGuestTask, string_field.
  destruct task as [| |b|q|s|elems|fields]; simpl; try done;
    try (by repeat case_match).
  destruct (Js.truthy (default Js.Undefined (fields !! "id"))); [|done].
  destruct (fields !! "user_id") as [[| | | |owner| |]|]; simpl; try done.
  intros [= Heq]. apply String.eqb_eq in Heq. by subst.
Qed.

Lemma getLocalTasks_step_scanned ls (tasks : list Js.Value) (i : nat) :
  Forall (scanned ls) tasks →
  Forall (scanned ls) (getLocalTasks_step ls tasks i).
Proof.
  intros Hacc. unfold getLocalTasks_step.
  destruct (Storage.key ls i) as [key|] eqn:Hkey; [|done].
  destruct (Storage.truthy (Some key) && startsWith "task_" key) eqn:Hk;
    [|done].
  apply andb_prop in Hk as [_ Hprefix].
  destruct (Storage_key_stored _ _ _ Hkey) as [text Htext].
  unfold Storage.getItem. rewrite Htext. simpl.
  unfold parse.
  destruct (JSON_parse (if negb (String.eqb text EmptyString)
                        then text else "{}")) as [task|] eqn:Hparse;
    simpl; [|done].
  destruct (isGuestTask task) as [[]|] eqn:Hguest; simpl; try done.
  apply Forall_app. split; [done|]. constructor; [|done].
  exists key, text. split_and!; try done.
  - by destruct (String.eqb text EmptyString).
  - by apply isGuestTask_owner.
Qed.

Lemma getLocalTasks_scanned (ls : gmap string string) :
  Forall (scanned ls) (getLocalTasks ls).
Proof.
  unfold getLocalTasks.
  assert (H : ∀ indices acc, Forall (scanned ls) acc →
              Forall (scanned ls) (foldl (getLocalTasks_step ls) acc indices)).
  { induction indices as [|i indices IH]; intros acc Hacc; simpl; [done|].
    by apply IH, getLocalTasks_step_scanned. }
  by apply H.
Qed.

(** C7. The local scan returns only records stored under a key that starts
    with [task_] and whose owner tag [user_id] is the string [guest]: each
    task it returns is the parse of such an entry; a record with another
    owner tag, [registered] for one, or with none, is never returned. *)
Theorem getLocalTasks_only_guest_tasks (ls : gmap string string) :
  (∀ task, task ∈ getLocalTasks ls →
     ∃ key text,
       ls !! key = Some text ∧ startsWith "task_" key = true
       ∧ JSON_parse (if String.eqb text EmptyString then "{}" else text)
         = Some task
       ∧ string_field task "user_id" = Some "guest")
  ∧ (∀ task, string_field task "user_id" ≠ Some "guest" →
       task ∉ getLocalTasks ls).
Proof.
  pose proof (getLocalTasks_scanned ls) as Hall.
  rewrite Forall_forall in Hall. split.
  - intros task Hin. by apply Hall.
  - intros task Hne Hin. apply Hall in Hin as (_ & _ & _ & _ & _ & Howner).
    done.
Qed.

End LocalScan.

Lemma getLocalTasks_only_guest_tasks_witness :
  (Demo.task_r ∉ @Dashboard.getLocalTasks Demo.runtime Demo.mixed_storage)
  ∧ ∃ key text,
      Demo.mixed_storage !! key = Some text ∧ startsWith "task_" key = true
      ∧ @JSON_parse Demo.runtime
          (if String.eqb text EmptyString then "{}" else text)
        = Some Demo.task_a
      ∧ string_field Demo.task_a "user_id" = Some "guest".
Proof.
  split.
  - apply (proj2 (@getLocalTasks_only_guest_tasks Demo.runtime
                     Demo.mixed_storage) Demo.task_r).
    vm_compute. discriminate.
  - apply (proj1 (@getLocalTasks_only_guest_tasks Demo.runtime
                     Demo.mixed_storage) Demo.task_a).
    vm_compute. left.
Defined.

Example getLocalTasks_mixed_storage :
  @Dashboard.getLocalTasks Demo.runtime Demo.mixed_storage = [Demo.task_a].
Proof. vm_compute. reflexivity. Qed.

(** The scan misses no guest task: the converse of the theorem above. *)
Section LocalScanComplete.
Context {rt : Runtime}.
Import Dashboard.



End LocalScanComplete.

(** ** Which store the statistics come from *)

Section Resolver.
Context {rt : Runtime}.
Import Dashboard.

(** The callback reads two properties of a task and nothing else. *)
Lemma count_task_reads now limit (acc : Stats) (t1 t2 : Js.Value) :
  Js.get t1 "status" = Js.get t2 "status" →
  Js.get t1 "due_date" = Js.get t2 "due_date" →
  count_task now limit acc t1 = count_task now limit acc t2.
Proof. intros Hs Hd. unfold count_task, status_of. by rewrite Hs, Hd. Qed.

Lemma get_not_nullish (task : Js.Value) (name : string) :
  nullish task = false → ∃ v, Js.get task name = Js.Normal v.
Proof. destruct task; try done; simpl; eauto. Qed.

(** The record built from a task has the task's status and due date. *)
Lemma pick_fields_reads (task : Js.Value) :
  nullish task = false →
  ∃ picked, pick_fields task = Js.Normal picked
            ∧ Js.get picked "status" = Js.get task "status"
            ∧ Js.get picked "due_date" = Js.get task "due_date".
Proof.
  intros Hn. unfold pick_fields.
  destruct (get_not_nullish task "id" Hn) as [id ->].
  destruct (get_not_nullish task "title" Hn) as [title ->].
  destruct (get_not_nullish task "due_date" Hn) as [due ->].
  destruct (get_not_nullish task "status" Hn) as [status ->].
  simpl. eexists. split; [reflexivity|]. simpl. split; f_equal.
Qed.

Lemma Array_map_pick_fields now limit (tasks : list Js.Value) :
  Forall (λ task, nullish task = false) tasks →
  ∃ picked, Array_map pick_fields (Js.Array tasks) = Js.Normal picked
            ∧ List.length picked = List.length tasks
            ∧ ∀ acc, forEach (count_task now limit) picked acc
                     = forEach (count_task now limit) tasks acc.
Proof.
  induction 1 as [|task rest Hn _ (picked & Hmap & Hlen & Hsame)]; simpl.
  - exists []. done.
  - destruct (pick_fields_reads task Hn) as (p & -> & Hs & Hd). simpl.
    simpl in Hmap. rewrite Hmap. simpl.
    exists (p :: picked). split_and!; [done|simpl; by rewrite Hlen|].
    intros acc. simpl. rewrite (count_task_reads _ _ _ p task Hs Hd).
    destruct (count_task now limit acc task); simpl; [apply Hsame|done].
Qed.

(** C3. With an access token in the storage area, a remote fetch that
    succeeds with a task list that is not empty makes [refreshStats]
    compute the statistics of exactly that list.  With no access token,
    or a remote fetch that fails or returns an empty list (or no list), it
    computes them of exactly the guest-filtered local list,
    [getLocalTasks]. *)
Theorem refreshStats_source now (remote : Js.Completion Js.Value)
    (ls : gmap string string) :
  (∀ data tasks,
     Storage.truthy (Storage.getItem ls "access_token") = true →
     remote = Js.Normal data →
     Js.get data "tasks" = Js.Normal (Js.Array tasks) →
     tasks ≠ [] → Forall (λ task, nullish task = false) tasks →
     refreshStats now remote ls = computeStats now tasks)
  ∧ (Storage.truthy (Storage.getItem ls "access_token") = false
     ∨ (∃ e, remote = Js.Throw e)
     ∨ (∃ data tasks, remote = Js.Normal data
                      ∧ Js.get data "tasks" = Js.Normal tasks
                      ∧ (tasks = Js.Array [] ∨ Js.truthy tasks = false)) →
     refreshStats now remote ls = computeStats now (getLocalTasks ls)).
Proof.
  split.
  - intros data tasks Htoken -> Hdata Hne Hall.
    unfold refreshStats, fetchSupabaseTasks. rewrite Htoken.
    cbn [mbind Js.Completion_bind Js.try_catch]. rewrite Hdata.
    cbn [mbind Js.Completion_bind Js.try_catch Js.or_else Js.truthy].
    destruct (Array_map_pick_fields now (dueSoonThreshold now) tasks Hall)
      as (picked & -> & Hlen & Hsame).
    cbn [mbind mret Js.Completion_bind Js.Completion_ret Js.try_catch].
    rewrite Hlen. destruct tasks as [|task rest]; [done|].
    cbn [List.length Nat.ltb Nat.leb]. unfold computeStats. apply Hsame.
  - intros [Htoken|[[e ->]|(data & tasks & -> & Hdata & Hempty)]];
      unfold refreshStats, fetchSupabaseTasks.
    + by rewrite Htoken.
    + by destruct (Storage.truthy _).
    + destruct (Storage.truthy _); [|done].
      cbn [mbind Js.Completion_bind Js.try_catch]. rewrite Hdata.
      destruct Hempty as [->|Hfalsy]; [done|].
      cbn [mbind Js.Completion_bind]. unfold Js.or_else. by rewrite Hfalsy.
Qed.

End Resolver.

Lemma refreshStats_source_witness :
  @Dashboard.refreshStats Demo.runtime Demo.now
    (Js.Normal (Js.Object {[ "tasks" := Js.Array [Demo.task_r] ]})) Demo.storage
  = @Dashboard.computeStats Demo.runtime Demo.now [Demo.task_r]
  ∧ @Dashboard.refreshStats Demo.runtime Demo.now
      (Js.Throw Js.TypeError) Demo.storage
    = @Dashboard.computeStats Demo.runtime Demo.now
        (@Dashboard.getLocalTasks Demo.runtime Demo.storage).
Proof.
  split.
  - refine (proj1 (@refreshStats_source Demo.runtime Demo.now _ Demo.storage)
              _ [Demo.task_r] _ eq_refl _ _ _).
    + vm_compute. reflexivity.
    + vm_compute. reflexivity.
    + discriminate.
    + repeat constructor.
  - refine (proj2 (@refreshStats_source Demo.runtime Demo.now _ Demo.storage) _).
    right. left. by exists Js.TypeError.
Defined.

Example refreshStats_remote_wins :
  @Dashboard.refreshStats Demo.runtime Demo.now
    (Js.Normal (Js.Object {[ "tasks" := Js.Array [Demo.task_r] ]})) Demo.storage
  = Js.Normal {| completed := 0; pending := 1; dueSoon := 1 |}.
Proof. vm_compute. reflexivity. Qed.

Example refreshStats_falls_back :
  @Dashboard.refreshStats Demo.runtime Demo.now
    (Js.Throw Js.TypeError) Demo.storage
  = Js.Normal {| completed := 1; pending := 2; dueSoon := 1 |}.
Proof. vm_compute. reflexivity. Qed.

(** * Further properties of the code *)

(** ** The guest session, the migration and the storage area *)

Section GuestModeMore.
Import GuestMode.

Lemma migrateGuestData_without_token_aux userId net (w : World) :
  Storage.truthy (getGuestSessionId w) = false →
  migrateGuestData userId net w = (no_migration, w).
Proof. unfold migrateGuestData. by intros ->. Qed.

(** X1. Without a guest token in the storage area (none, or an empty one),
    [migrateGuestData] sends nothing: it returns the zero counts and the
    state is what it was, requests included. *)
Theorem migrateGuestData_without_session
    (userId : string) (net : Js.Completion Response) (w : World) :
  getGuestSessionId w = None ∨ getGuestSessionId w = Some EmptyString →
  migrateGuestData userId net w = (no_migration, w).
Proof.
  intros H. apply migrateGuestData_without_token_aux.
  by apply Storage_truthy_false.
Qed.

Lemma migrateGuestData_without_session_witness :
  migrateGuestData "user-1" (Js.Normal Demo.response_ok) Demo.fresh_world
  = (no_migration, Demo.fresh_world).
Proof.
  apply (migrateGuestData_without_session "user-1"
           (Js.Normal Demo.response_ok) Demo.fresh_world).
  left. reflexivity.
Defined.

(** X2. Whatever the outcome, [migrateGuestData] writes no key and removes
    none but [guest_session_id]; it sends at most one request, a POST of
    [{user_id}] to the migrate address of the stored token. *)
Theorem migrateGuestData_frame
    (userId : string) (net : Js.Completion Response) (w : World) :
  let after := (migrateGuestData userId net w).2 in
  (∀ key, key ≠ "guest_session_id" →
     localStorage after !! key = localStorage w !! key)
  ∧ (localStorage after !! "guest_session_id" = None
     ∨ localStorage after = localStorage w)
  ∧ (requests after = requests w
     ∨ ∃ token, getGuestSessionId w = Some token ∧ token ≠ EmptyString
         ∧ requests after =
           (requests w ++
            [{| url := "http://localhost:8000/api/guest/migrate/" +:+ token;
                method := "POST";
                body := Js.Object {[ "user_id" := Js.Str userId ]} |}])%list).
Proof.
  unfold migrateGuestData.
  destruct (Storage.truthy (getGuestSessionId w)) eqn:Ht; simpl.
  2:{ split_and!; auto. }
  destruct (Storage_truthy_is_Some _ Ht) as (token & Htok & Hne).
  rewrite Htok. simpl.
  destruct net as [resp|e]; simpl.
  - destruct (ok resp); simpl.
    + destruct (json resp) as [data|e]; simpl.
      * split_and!.
        -- intros key Hkey. unfold Storage.removeItem. by rewrite lookup_delete_ne.
        -- left. unfold Storage.removeItem. apply lookup_delete_eq.
        -- right. by exists token.
      * split_and!; auto. right. by exists token.
    + split_and!; auto. right. by exists token.
  - split_and!; auto. right. by exists token.
Qed.

Lemma migrateGuestData_frame_witness :
  localStorage (migrateGuestData "user-1" (Js.Normal Demo.response_ok)
                  Demo.world).2 !! "task_a"
  = Demo.guest_storage !! "task_a".
Proof.
  refine (proj1 (migrateGuestData_frame "user-1" (Js.Normal Demo.response_ok)
                   Demo.world) "task_a" _).
  discriminate.
Defined.

(** X3. The guest token is removed exactly when the migration succeeded:
    in a state with a token, it is gone afterwards if and only if the
    response was ok and its body parsed. *)
Theorem migrateGuestData_clears_token_iff
    (userId token : string) (net : Js.Completion Response) (w : World) :
  getGuestSessionId w = Some token → token ≠ EmptyString →
  getGuestSessionId (migrateGuestData userId net w).2 = None
  ↔ ∃ resp data, net = Js.Normal resp ∧ ok resp = true
                 ∧ json resp = Js.Normal data.
Proof.
  intros Htok Hne. unfold migrateGuestData. rewrite Htok.
  pose proof Hne as Ht. apply Storage_truthy_Some in Ht. rewrite Ht. simpl.
  split.
  - destruct net as [resp|e]; simpl.
    + destruct (ok resp) eqn:Hok; simpl.
      * destruct (json resp) as [data|e] eqn:Hjson; simpl; eauto.
        unfold getGuestSessionId. simpl. unfold getGuestSessionId in Htok.
        congruence.
      * unfold getGuestSessionId. simpl. unfold getGuestSessionId in Htok.
        congruence.
    + unfold getGuestSessionId. simpl. unfold getGuestSessionId in Htok.
      congruence.
  - intros (resp & data & -> & Hok & Hjson). simpl. rewrite Hok, Hjson. simpl.
    unfold getGuestSessionId, Storage.getItem, Storage.removeItem. simpl.
    apply lookup_delete_eq.
Qed.

Lemma migrateGuestData_clears_token_iff_witness :
  getGuestSessionId
    (migrateGuestData "user-1" (Js.Normal Demo.response_ok) Demo.world).2 = None.
Proof.
  apply (migrateGuestData_clears_token_iff "user-1" "guest-T1"
           (Js.Normal Demo.response_ok) Demo.world).
  - vm_compute. reflexivity.
  - discriminate.
  - exists Demo.response_ok, Demo.migrated. split_and!; reflexivity.
Defined.

(** X4. A migration that succeeded is not repeated: the next call of
    [migrateGuestData], for any account and however the network would
    answer, sends no request and returns the zero counts. *)
Theorem migrateGuestData_after_success
    (userId userId' token : string) (resp : Response) (data : Js.Value)
    (net' : Js.Completion Response) (w : World) :
  getGuestSessionId w = Some token → token ≠ EmptyString →
  ok resp = true → json resp = Js.Normal data →
  let migrated := (migrateGuestData userId (Js.Normal resp) w).2 in
  migrateGuestData userId' net' migrated = (no_migration, migrated).
Proof.
  intros Htok Hne Hok Hjson migrated.
  apply migrateGuestData_without_token_aux.
  assert (Hgone : getGuestSessionId migrated = None).
  { unfold migrated, migrateGuestData. rewrite Htok.
    apply Storage_truthy_Some in Hne. rewrite Hne. simpl.
    rewrite Hok, Hjson. simpl.
    unfold getGuestSessionId, Storage.getItem, Storage.removeItem. simpl.
    apply lookup_delete_eq. }
  by rewrite Hgone.
Qed.

Lemma migrateGuestData_after_success_witness :
  (migrateGuestData "user-2" (Js.Normal Demo.response_ok)
     (migrateGuestData "user-1" (Js.Normal Demo.response_ok) Demo.world).2).1
  = no_migration.
Proof.
  rewrite (migrateGuestData_after_success "user-1" "user-2" "guest-T1"
             Demo.response_ok Demo.migrated (Js.Normal Demo.response_ok)
             Demo.world).
  - reflexivity.
  - vm_compute. reflexivity.
  - discriminate.
  - reflexivity.
  - reflexivity.
Defined.

End GuestModeMore.

Section GuestSessionMore.
Import GuestMode.

Lemma getOrCreate_other_keys uuid net (w : World) (key : string) :
  key ≠ "guest_session_id" →
  localStorage (getOrCreateGuestSession uuid net w).2 !! key
  = localStorage w !! key.
Proof.
  intros Hkey.
  destruct (Storage.truthy (getGuestSessionId w)) eqn:Ht.
  - destruct (Storage_truthy_is_Some _ Ht) as (s & Hs & Hne).
    by rewrite (getOrCreate_existing _ _ _ s).
  - rewrite getOrCreate_absent by done. simpl.
    by rewrite lookup_insert_ne.
Qed.

(** X5. [getOrCreateGuestSession] touches no key but [guest_session_id]:
    every other key keeps its value, so a call never signs anyone in or
    out. *)
Theorem getOrCreateGuestSession_frame
    (uuid : string) (net : Js.Completion Response) (w : World) :
  let after := (getOrCreateGuestSession uuid net w).2 in
  (∀ key, key ≠ "guest_session_id" →
     localStorage after !! key = localStorage w !! key)
  ∧ isLoggedIn after = isLoggedIn w
  ∧ isGuest after = isGuest w.
Proof.
  intros after.
  split; [intros key Hkey; by apply getOrCreate_other_keys|].
  unfold isGuest, isLoggedIn, Storage.getItem, after.
  by rewrite getOrCreate_other_keys.
Qed.

Lemma getOrCreateGuestSession_frame_witness :
  localStorage (getOrCreateGuestSession "u1" (Js.Throw Js.TypeError)
                  Demo.fresh_world).2 !! "access_token" = None.
Proof.
  refine (proj1 (getOrCreateGuestSession_frame "u1" (Js.Throw Js.TypeError)
                   Demo.fresh_world) "access_token" _).
  discriminate.
Defined.

(** X6. After [clearGuestSession] the next [getOrCreateGuestSession] starts
    a new session: it stores and returns the token [guest-<uuid>] and sends
    its registration, whatever token was stored before. *)
Theorem getOrCreateGuestSession_after_clear
    (uuid : string) (net : Js.Completion Response) (w : World) :
  getGuestSessionId (clearGuestSession w) = None
  ∧ getOrCreateGuestSession uuid net (clearGuestSession w)
    = ("guest-" +:+ uuid,
       {| localStorage :=
            <["guest_session_id" := "guest-" +:+ uuid]> (localStorage w);
          requests :=
            (requests w ++ [registration ("guest-" +:+ uuid)])%list |}).
Proof.
  assert (Hnone : getGuestSessionId (clearGuestSession w) = None).
  { unfold getGuestSessionId, clearGuestSession, Storage.getItem,
      Storage.removeItem. simpl. apply lookup_delete_eq. }
  split; [done|].
  rewrite getOrCreate_absent by (by rewrite Hnone).
  simpl. unfold Storage.removeItem. by rewrite insert_delete_eq.
Qed.

End GuestSessionMore.

(** ** Signing in and out, as the bar and the application see it *)

Section SignedInOrGuest.

(** X7. The bar never shows the account menu and the Save to Cloud button
    together.  Its guest flag is the guest flag of [guestMode.ts] restricted
    to states with a guest token: the two disagree exactly when there is
    neither an access token nor a guest token. *)
Theorem NavigationBar_flags (w : World) :
  let ls := localStorage w in
  ¬ (NavigationBar.isLoggedIn ls = true ∧ NavigationBar.isGuest ls = true)
  ∧ NavigationBar.isLoggedIn ls = GuestMode.isLoggedIn w
  ∧ NavigationBar.isGuest ls
    = GuestMode.isGuest w && Storage.truthy (GuestMode.getGuestSessionId w)
  ∧ (NavigationBar.isGuest ls ≠ GuestMode.isGuest w
     ↔ Storage.truthy (Storage.getItem ls "access_token") = false
       ∧ Storage.truthy (Storage.getItem ls "guest_session_id") = false).
Proof.
  unfold NavigationBar.isGuest, NavigationBar.isLoggedIn, GuestMode.isGuest,
    GuestMode.isLoggedIn, GuestMode.getGuestSessionId. simpl.
  destruct (Storage.truthy (Storage.getItem (localStorage w) "access_token")),
    (Storage.truthy (Storage.getItem (localStorage w) "guest_session_id"));
    simpl; split_and!; try done; try (by intros [? ?]); split; try done;
    by intros [? ?].
Qed.



End SignedInOrGuest.

(** ** The guest scan as a pass over the entries *)

Section ScanEntries.
Context {rt : Runtime}.
Import Dashboard.
Local Open Scope list_scope.

(** The condition of the scan never throws: it is [is_guest_record]. *)
Lemma isGuestTask_is_guest_record (task : Js.Value) :
  isGuestTask task = Js.Normal (is_guest_record task).
Proof.
  unfold isGuestTask, is_guest_record.
  destruct task as [| |b|q|s|elems|fields]; simpl; try done;
    try (by repeat case_match).
Qed.

(** One turn of the loop, read off the list of entries. *)
Lemma getLocalTasks_step_entry ls (tasks : list Js.Value) (i : nat) :
  getLocalTasks_step ls tasks i =
  match map_to_list ls !! i with
  | Some entry => (tasks ++ scan_entry entry)%list
  | None => tasks
  end.
Proof.
  unfold getLocalTasks_step, Storage.key, Storage.keys.
  rewrite list_lookup_fmap.
  destruct (map_to_list ls !! i) as [[key text]|] eqn:Hi; simpl; [|done].
  unfold scan_entry. simpl.
  assert (Hkey : startsWith "task_" key = true →
                 negb (String.eqb key EmptyString) = true).
  { by destruct key. }
  destruct (startsWith "task_" key) eqn:Hprefix.
  2:{ rewrite andb_false_r. by rewrite app_nil_r. }
  rewrite Hkey by done. simpl.
  apply list_elem_of_lookup_2, elem_of_map_to_list in Hi.
  unfold Storage.getItem. rewrite Hi. simpl. unfold parse.
  replace (if negb (String.eqb text EmptyString) then text else "{}")
    with (if String.eqb text EmptyString then "{}" else text)
    by (by destruct (String.eqb text EmptyString)).
  destruct (JSON_parse _) as [task|]; simpl; [|by rewrite app_nil_r].
  rewrite isGuestTask_is_guest_record. simpl.
  destruct (is_guest_record task); [done|by rewrite app_nil_r].
Qed.

Lemma foldl_entries (entries before : list (string * string))
    (f : list Js.Value → nat → list Js.Value) (tasks : list Js.Value)
    (rest : list (string * string)) :
  (∀ acc i, f acc i = match (before ++ entries ++ rest) !! i with
                      | Some entry => (acc ++ scan_entry entry)%list
                      | None => acc
                      end) →
  foldl f tasks (seq (List.length before) (List.length entries))
  = (tasks ++ flat_map scan_entry entries)%list.
Proof.
  intros Hf. revert before tasks Hf.
  induction entries as [|entry entries IH]; intros before tasks Hf; simpl.
  - by rewrite app_nil_r.
  - rewrite Hf. rewrite lookup_app_r by lia. rewrite Nat.sub_diag. simpl.
    specialize (IH (before ++ [entry]) (tasks ++ scan_entry entry)%list).
    rewrite length_app in IH. simpl in IH.
    rewrite Nat.add_1_r in IH. rewrite IH.
    + by rewrite <- app_assoc.
    + intros acc i. rewrite Hf. by rewrite <- app_assoc.
Qed.

(** The loop over the indices is one pass over the entries, in their
    order. *)
Lemma getLocalTasks_flat_map (ls : gmap string string) :
  getLocalTasks ls = flat_map scan_entry (map_to_list ls).
Proof.
  unfold getLocalTasks, Storage.length. rewrite <- length_map_to_list.
  rewrite (foldl_entries (map_to_list ls) [] _ [] []); [done|].
  intros acc i. rewrite getLocalTasks_step_entry. simpl.
  by rewrite app_nil_r.
Qed.

Lemma scan_entry_other_key (entry : string * string) :
  startsWith "task_" entry.1 = false → scan_entry entry = [].
Proof. unfold scan_entry. by intros ->. Qed.

(** Writing a key replaces what that key contributed to the scan. *)
Lemma getLocalTasks_setItem (ls : gmap string string) (key text : string) :
  getLocalTasks (Storage.setItem key text ls)
  ≡ₚ scan_entry (key, text) ++ getLocalTasks (Storage.removeItem key ls).
Proof.
  rewrite !getLocalTasks_flat_map. unfold Storage.setItem, Storage.removeItem.
  rewrite <- insert_delete_eq.
  rewrite (map_to_list_insert (delete key ls) key text)
    by apply lookup_delete_eq.
  done.
Qed.

Lemma getLocalTasks_removeItem (ls : gmap string string) (key text : string) :
  ls !! key = Some text →
  getLocalTasks ls
  ≡ₚ scan_entry (key, text) ++ getLocalTasks (Storage.removeItem key ls).
Proof.
  intros Hkey. rewrite !getLocalTasks_flat_map. unfold Storage.removeItem.
  by rewrite <- (map_to_list_delete ls key text Hkey).
Qed.

Lemma getLocalTasks_removeItem_other (ls : gmap string string) (key : string) :
  startsWith "task_" key = false →
  getLocalTasks (Storage.removeItem key ls) ≡ₚ getLocalTasks ls.
Proof.
  intros Hkey. destruct (ls !! key) as [text|] eqn:Hls.
  - rewrite (getLocalTasks_removeItem ls key text Hls).
    by rewrite (scan_entry_other_key (key, text)).
  - unfold Storage.removeItem. by rewrite delete_id.
Qed.

End ScanEntries.

(** ** The algebra of [computeStats] *)

Section StatsAlgebra.
Context {rt : Runtime}.
Import Dashboard.
Local Open Scope list_scope.

Lemma add_stats_no_stats_l (s : Stats) : add_stats no_stats s = s.
Proof. by destruct s. Qed.

Lemma add_stats_assoc (a b c : Stats) :
  add_stats (add_stats a b) c = add_stats a (add_stats b c).
Proof. unfold add_stats. simpl. f_equal; lia. Qed.

Lemma add_stats_comm (a b : Stats) : add_stats a b = add_stats b a.
Proof. unfold add_stats. f_equal; lia. Qed.

(** The callback adds to the counters what the task alone would give. *)
Lemma count_task_add now limit (acc : Stats) (task : Js.Value) :
  count_task now limit acc task
  = (s ← count_task now limit no_stats task; mret (add_stats acc s)).
Proof.
  unfold count_task. destruct (status_of task) as [status|]; simpl; [|done].
  destruct (String.eqb status "completed").
  - simpl. unfold add_stats. simpl. do 2 f_equal; lia.
  - destruct (Js.get task "due_date") as [due|]; simpl; [|done].
    repeat case_match; simpl; unfold add_stats; simpl; do 2 f_equal; lia.
Qed.

(** It throws on the values whose status it cannot read, and on no other;
    what it throws is a [TypeError]. *)
Lemma count_task_alone now limit (task : Js.Value) :
  if has_unreadable_status task
  then count_task now limit no_stats task = Js.Throw Js.TypeError
  else ∃ s, count_task now limit no_stats task = Js.Normal s.
Proof.
  unfold count_task, status_of, has_unreadable_status, Js.or_else.
  destruct task as [| |b|q|s|elems|fields]; simpl; eauto;
    try (by repeat case_match; eauto).
  destruct (fields !! "status") as [[| |[]|q|s|elems|fs]|]; simpl;
    try destruct (negb (Qeq_bool q 0));
    try destruct (negb (String.eqb s EmptyString)); simpl;
    try done; repeat case_match; eauto.
Qed.

Lemma count_task_unreadable now limit (acc : Stats) (task : Js.Value) :
  has_unreadable_status task = true →
  count_task now limit acc task = Js.Throw Js.TypeError.
Proof.
  intros Ht. rewrite count_task_add.
  pose proof (count_task_alone now limit task) as H. rewrite Ht in H.
  by rewrite H.
Qed.

Lemma count_task_readable now limit (task : Js.Value) :
  has_unreadable_status task = false →
  ∃ s, ∀ acc, count_task now limit acc task = Js.Normal (add_stats acc s).
Proof.
  intros Ht. pose proof (count_task_alone now limit task) as H.
  rewrite Ht in H. destruct H as [s Hs]. exists s. intros acc.
  rewrite count_task_add. by rewrite Hs.
Qed.

Lemma forEach_add now limit (tasks : list Js.Value) (acc : Stats) :
  forEach (count_task now limit) tasks acc
  = (s ← forEach (count_task now limit) tasks no_stats; mret (add_stats acc s)).
Proof.
  revert acc. induction tasks as [|task rest IH]; intros acc; simpl.
  - unfold add_stats. destruct acc. simpl. do 2 f_equal; lia.
  - rewrite count_task_add.
    destruct (count_task now limit no_stats task) as [s|e]; simpl; [|done].
    rewrite (IH (add_stats acc s)), (IH s).
    destruct (forEach (count_task now limit) rest no_stats) as [s'|e]; simpl;
      [|done].
    by rewrite add_stats_assoc.
Qed.

Lemma forEach_app now limit (l1 l2 : list Js.Value) (acc : Stats) :
  forEach (count_task now limit) (l1 ++ l2) acc
  = (forEach (count_task now limit) l1 acc ≫= forEach (count_task now limit) l2).
Proof.
  revert acc. induction l1 as [|task rest IH]; intros acc; [done|].
  cbn [forEach app]. destruct (count_task now limit acc task); [apply IH|done].
Qed.

Lemma forEach_Permutation now limit (l1 l2 : list Js.Value) :
  l1 ≡ₚ l2 →
  ∀ acc, forEach (count_task now limit) l1 acc
         = forEach (count_task now limit) l2 acc.
Proof.
  induction 1 as [|x l l' _ IH|x y l|l l' l'' _ IH1 _ IH2]; intros acc.
  - done.
  - simpl. destruct (count_task now limit acc x); simpl; [apply IH|done].
  - cbn [forEach].
    destruct (has_unreadable_status x) eqn:Hx, (has_unreadable_status y) eqn:Hy.
    + by rewrite !count_task_unreadable.
    + destruct (count_task_readable now limit y Hy) as [sy Hsy].
      rewrite Hsy, (count_task_unreadable _ _ acc x Hx). simpl.
      by rewrite count_task_unreadable.
    + destruct (count_task_readable now limit x Hx) as [sx Hsx].
      rewrite Hsx, (count_task_unreadable _ _ acc y Hy). simpl.
      by rewrite count_task_unreadable.
    + destruct (count_task_readable now limit x Hx) as [sx Hsx].
      destruct (count_task_readable now limit y Hy) as [sy Hsy].
      rewrite (Hsx acc), (Hsy acc). simpl. rewrite Hsx, Hsy. simpl.
      by rewrite !add_stats_assoc, (add_stats_comm sx sy).
  - by rewrite IH1.
Qed.



End StatsAlgebra.

Section StatsMore.
Context {rt : Runtime}.
Import Dashboard.
Local Open Scope list_scope.


(** X10. The statistics of a list put together from two parts are the sums
    of the statistics of the parts; if [computeStats] throws on a part, it
    throws on the whole. *)
Theorem computeStats_append now (l1 l2 : list Js.Value) :
  computeStats now (l1 ++ l2)
  = (s1 ← computeStats now l1; s2 ← computeStats now l2;
     mret (add_stats s1 s2)).
Proof.
  unfold computeStats. fold no_stats. rewrite forEach_app.
  destruct (forEach (count_task now (dueSoonThreshold now)) l1 no_stats)
    as [s1|e]; [|done].
  cbn [mbind Js.Completion_bind]. apply forEach_add.
Qed.

(** X11. The statistics do not depend on the order of the tasks, hence not
    on the order in which the browser enumerates the storage area. *)
Theorem computeStats_order now (l1 l2 : list Js.Value) :
  l1 ≡ₚ l2 → computeStats now l1 = computeStats now l2.
Proof. intros Hperm. unfold computeStats. by apply forEach_Permutation. Qed.

(** X12. [computeStats] reads the [status] and the [due_date] of a task and
    nothing else: two lists that agree on these, task by task, have the
    same statistics. *)
Theorem computeStats_reads_status_and_due_date now (l1 l2 : list Js.Value) :
  Forall2 (λ t1 t2, Js.get t1 "status" = Js.get t2 "status"
                    ∧ Js.get t1 "due_date" = Js.get t2 "due_date") l1 l2 →
  computeStats now l1 = computeStats now l2.
Proof.
  intros Hsame. unfold computeStats. generalize no_stats. unfold no_stats.
  generalize {| completed := 0; pending := 0; dueSoon := 0 |}.
  induction Hsame as [|t1 t2 l1 l2 [Hs Hd] _ IH]; intros acc; [done|].
  cbn [forEach]. rewrite (count_task_reads _ _ _ t1 t2 Hs Hd).
  destruct (count_task now (dueSoonThreshold now) acc t2); [apply IH|done].
Qed.

(** X13. The due-soon threshold is [now] plus seven times 24 hours, moved
    by the change of the zone's offset between the two instants, and clipped
    to the range of [Date]; in a zone whose offset never changes it is
    exactly [now + 604800000] ms. *)
Theorem dueSoonThreshold_offset (now : Z) :
  dueSoonThreshold now
  = Date.TimeClip
      (now + 604800000
       + (LocalTZA now true
          - LocalTZA (now + LocalTZA now true + 604800000) false))
  ∧ ∀ offset, (∀ t isUTC, LocalTZA t isUTC = offset) →
      dueSoonThreshold now = Date.TimeClip (now + 604800000).
Proof.
  assert (Heq : dueSoonThreshold now
    = Date.TimeClip
      (now + 604800000
       + (LocalTZA now true
          - LocalTZA (now + LocalTZA now true + 604800000) false))).
  { unfold dueSoonThreshold. rewrite setDate_getDate. f_equal.
    unfold add_calendar_days, UTC, LocalTime, Date.msPerDay.
    change (7 * 86400000) with 604800000. lia. }
  split; [done|].
  intros offset Hconst. rewrite Heq, !Hconst. f_equal. lia.
Qed.

End StatsMore.

Lemma computeStats_order_witness :
  @Dashboard.computeStats Demo.runtime Demo.now [Demo.task_a; Demo.task_b]
  = @Dashboard.computeStats Demo.runtime Demo.now [Demo.task_b; Demo.task_a].
Proof.
  apply (@computeStats_order Demo.runtime Demo.now).
  apply perm_swap.
Defined.

Lemma computeStats_reads_status_and_due_date_witness :
  @Dashboard.computeStats Demo.runtime Demo.now [Demo.task_a]
  = @Dashboard.computeStats Demo.runtime Demo.now
      [Demo.task_value "z" "registered" "pending" Demo.week_later].
Proof.
  apply (@computeStats_reads_status_and_due_date Demo.runtime Demo.now).
  repeat constructor.
Defined.

Lemma dueSoonThreshold_offset_witness :
  @Dashboard.dueSoonThreshold Demo.runtime_utc Demo.now
  = Date.TimeClip (Demo.now + 604800000).
Proof.
  refine (proj2 (@dueSoonThreshold_offset Demo.runtime_utc Demo.now) 0 _).
  reflexivity.
Defined.

(** ** What the guest scan returns, and how writes change it *)

Section ScanMore.
Context {rt : Runtime}.
Import Dashboard.
Local Open Scope list_scope.

(** X14. The guest scan returns exactly the guest records of the task
    entries: a value is returned if and only if it is the parse of the text
    under some key that starts with [task_] (an empty text reads as [{}]),
    and is a record with a truthy [id] whose [user_id] is [guest].  Entries
    that do not parse are passed over. *)
Theorem getLocalTasks_exactly (ls : gmap string string) (task : Js.Value) :
  task ∈ getLocalTasks ls
  ↔ ∃ key text,
      ls !! key = Some text ∧ startsWith "task_" key = true
      ∧ JSON_parse (if String.eqb text EmptyString then "{}" else text)
        = Some task
      ∧ is_guest_record task = true.
Proof.
  rewrite getLocalTasks_flat_map, list_elem_of_In, in_flat_map. split.
  - intros ([key text] & Hin & Htask).
    apply list_elem_of_In, elem_of_map_to_list in Hin.
    unfold scan_entry in Htask. simpl in Htask.
    destruct (startsWith "task_" key) eqn:Hprefix; [|done].
    destruct (JSON_parse _) as [parsed|] eqn:Hparse; [|done].
    destruct (is_guest_record parsed) eqn:Hguest; [|done].
    destruct Htask as [->|[]]. by exists key, text.
  - intros (key & text & Hls & Hprefix & Hparse & Hguest).
    exists (key, text). split.
    + by apply list_elem_of_In, elem_of_map_to_list.
    + unfold scan_entry. simpl. rewrite Hprefix, Hparse, Hguest. by left.
Qed.

(** X15. Storing a guest task makes the scan return it: after [setItem] of
    a new key that starts with [task_], with a text that parses to a guest
    record, the scan returns that record and what it returned before.
    Removing the key again takes it back out. *)
Theorem getLocalTasks_put_guest_task
    (ls : gmap string string) (key text : string) (task : Js.Value) :
  ls !! key = None → startsWith "task_" key = true →
  JSON_parse (if String.eqb text EmptyString then "{}" else text) = Some task →
  is_guest_record task = true →
  getLocalTasks (Storage.setItem key text ls) ≡ₚ task :: getLocalTasks ls
  ∧ getLocalTasks (Storage.removeItem key (Storage.setItem key text ls))
    = getLocalTasks ls.
Proof.
  intros Hfresh Hprefix Hparse Hguest. split.
  - rewrite getLocalTasks_setItem. unfold Storage.removeItem.
    rewrite delete_id by done.
    unfold scan_entry. simpl. by rewrite Hprefix, Hparse, Hguest.
  - unfold Storage.removeItem, Storage.setItem.
    by rewrite delete_insert_id.
Qed.

(** X16. Keys that do not start with [task_] do not matter to the scan:
    writing or removing one (a course, its task index, the guest token, an
    account key) leaves the returned tasks the same, up to their order. *)
Theorem getLocalTasks_other_keys
    (ls : gmap string string) (key text : string) :
  startsWith "task_" key = false →
  getLocalTasks (Storage.setItem key text ls) ≡ₚ getLocalTasks ls
  ∧ getLocalTasks (Storage.removeItem key ls) ≡ₚ getLocalTasks ls.
Proof.
  intros Hkey. split.
  - rewrite getLocalTasks_setItem.
    rewrite (scan_entry_other_key (key, text)) by done. simpl.
    by apply getLocalTasks_removeItem_other.
  - by apply getLocalTasks_removeItem_other.
Qed.

End ScanMore.

Lemma getLocalTasks_put_guest_task_witness :
  @Dashboard.getLocalTasks Demo.runtime
    (Storage.setItem "task_c"
       (Demo.task_text "c" "guest" "pending" Demo.not_a_date)
       Demo.mixed_storage)
  ≡ₚ Demo.task_c :: @Dashboard.getLocalTasks Demo.runtime Demo.mixed_storage.
Proof.
  refine (proj1 (@getLocalTasks_put_guest_task Demo.runtime Demo.mixed_storage
                   "task_c" _ Demo.task_c _ _ _ _)).
  - vm_compute. reflexivity.
  - reflexivity.
  - vm_compute. reflexivity.
  - vm_compute. reflexivity.
Defined.

Lemma getLocalTasks_other_keys_witness :
  @Dashboard.getLocalTasks Demo.runtime
    (Storage.removeItem "guest_session_id" Demo.storage)
  ≡ₚ @Dashboard.getLocalTasks Demo.runtime Demo.storage.
Proof.
  refine (proj2 (@getLocalTasks_other_keys Demo.runtime Demo.storage
                   "guest_session_id" EmptyString _)).
  reflexivity.
Defined.

(** ** Logout and the cleanup check, for every storage area *)

Section LogoutMore.
Local Open Scope list_scope.

Lemma filter_length_Permutation {A} (p : A → bool) (l1 l2 : list A) :
  l1 ≡ₚ l2 → List.length (List.filter p l1) = List.length (List.filter p l2).
Proof.
  induction 1 as [|x l l' _ IH|x y l|l l' l'' _ IH1 _ IH2]; simpl.
  - done.
  - destruct (p x); simpl; by rewrite IH.
  - by destruct (p x), (p y).
  - by rewrite IH1.
Qed.

Lemma filter_length_zero {A} (p : A → bool) (l : list A) :
  List.length (List.filter p l) = 0%nat ↔ ∀ x, x ∈ l → p x = false.
Proof.
  induction l as [|x l IH]; simpl.
  - split; [|done]. intros _ y Hin. by apply elem_of_nil in Hin.
  - destruct (p x) eqn:Hx; simpl.
    + split; [done|]. intros Hall. rewrite Hall in Hx; [done|by left].
    + rewrite IH. split.
      * intros Hall y Hin. apply elem_of_cons in Hin as [->|Hin]; auto.
      * intros Hall y Hin. apply Hall. by right.
Qed.

(** Removing a key that is no guest key does not change the count of the
    cleanup script. *)
Lemma checkLocalStorageData_removeItem (ls : gmap string string) (key : string) :
  LogoutCleanupTest.isGuestKey key = false →
  LogoutCleanupTest.checkLocalStorageData (Storage.removeItem key ls)
  = LogoutCleanupTest.checkLocalStorageData ls.
Proof.
  intros Hkey.
  unfold LogoutCleanupTest.checkLocalStorageData, LogoutCleanupTest.guestKeys,
    Storage.removeItem, Storage.keys.
  destruct (ls !! key) as [text|] eqn:Hls; [|by rewrite delete_id].
  rewrite <- (filter_length_Permutation _ _ _
    (fmap_Permutation fst _ _ (map_to_list_delete ls key text Hls))).
  simpl. by rewrite Hkey.
Qed.

(** X17. [handleLogout] removes the three account keys and nothing else, for
    every storage area: the keys left are the keys before without
    [access_token], [user_email] and [user_id], each with its value; the
    visitor is signed out; a second logout changes nothing. *)
Theorem handleLogout_exactly (ls : gmap string string) :
  dom (Navigation.handleLogout ls)
  = dom ls ∖ {[ "access_token"; "user_email"; "user_id" ]}
  ∧ (∀ key text, Navigation.handleLogout ls !! key = Some text →
       ls !! key = Some text)
  ∧ NavigationBar.isLoggedIn (Navigation.handleLogout ls) = false
  ∧ Navigation.handleLogout (Navigation.handleLogout ls)
    = Navigation.handleLogout ls.
Proof.
  split_and!.
  - unfold Navigation.handleLogout, Storage.removeItem.
    rewrite !dom_delete_L. apply set_eq. intros key.
    rewrite !elem_of_difference, !elem_of_union, !elem_of_singleton.
    tauto.
  - intros key text. rewrite handleLogout_lookup. by case_bool_decide.
  - unfold NavigationBar.isLoggedIn, Storage.getItem.
    by rewrite handleLogout_lookup.
  - apply map_eq. intros key. rewrite !handleLogout_lookup.
    by case_bool_decide.
Qed.

Lemma handleLogout_exactly_witness :
  Demo.storage !! "task_a"
  = Some (Demo.task_text "a" "guest" "pending" Demo.week_later).
Proof.
  refine (proj1 (proj2 (handleLogout_exactly Demo.storage)) "task_a" _ _).
  vm_compute. reflexivity.
Defined.

(** X18. Logging out never changes what the cleanup script finds: for every
    storage area, [checkLocalStorageData] counts as many guest keys after
    [handleLogout] as before, so the script reports a clean area after
    logout only if the area was clean already. *)
Theorem handleLogout_keeps_cleanup_count (ls : gmap string string) :
  LogoutCleanupTest.checkLocalStorageData (Navigation.handleLogout ls)
  = LogoutCleanupTest.checkLocalStorageData ls.
Proof.
  unfold Navigation.handleLogout.
  by rewrite !checkLocalStorageData_removeItem.
Qed.

(** X19. The cleanup script reports a clean area exactly when no stored key
    starts with [task_], [course_], [uploaded_files] or [guest_]; a clean
    report therefore implies the cleanup contract: no [task_] key, no
    [course_] key and no [guest_session_id]. *)
Theorem checkLocalStorageData_clean (ls : gmap string string) :
  (LogoutCleanupTest.checkLocalStorageData ls = 0%nat
   ↔ ∀ key, is_Some (ls !! key) →
       startsWith "task_" key = false ∧ startsWith "course_" key = false
       ∧ startsWith "uploaded_files" key = false
       ∧ startsWith "guest_" key = false)
  ∧ (LogoutCleanupTest.checkLocalStorageData ls = 0%nat →
     ∀ key, guest_data_key key = true → ls !! key = None).
Proof.
  assert (Hkeys : ∀ key, key ∈ Storage.keys ls ↔ is_Some (ls !! key)).
  { intros key. unfold Storage.keys. rewrite list_elem_of_fmap. split.
    - intros ([k v] & -> & Hin). apply elem_of_map_to_list in Hin. by eexists.
    - intros [v Hv]. exists (key, v). split; [done|].
      by apply elem_of_map_to_list. }
  assert (Hguest : ∀ key, LogoutCleanupTest.isGuestKey key = false
            ↔ startsWith "task_" key = false ∧ startsWith "course_" key = false
              ∧ startsWith "uploaded_files" key = false
              ∧ startsWith "guest_" key = false).
  { intros key. unfold LogoutCleanupTest.isGuestKey.
    rewrite !orb_false_iff. split; [by intros [[[[? ?] ?] ?] ?]|].
    intros (? & ? & ? & Hg). split_and!; try done.
    destruct (String.eqb_spec key "guest_session_id") as [->|]; [|done].
    by vm_compute in Hg. }
  assert (Hzero : LogoutCleanupTest.checkLocalStorageData ls = 0%nat
            ↔ ∀ key, is_Some (ls !! key) →
                LogoutCleanupTest.isGuestKey key = false).
  { unfold LogoutCleanupTest.checkLocalStorageData, LogoutCleanupTest.guestKeys.
    rewrite filter_length_zero. split.
    - intros Hall key Hin. by apply Hall, Hkeys.
    - intros Hall key Hin. by apply Hall, Hkeys. }
  split.
  - rewrite Hzero. split.
    + intros Hall key Hin. by apply Hguest, Hall.
    + intros Hall key Hin. by apply Hguest, Hall.
  - intros Hclean key Hkey. destruct (ls !! key) as [text|] eqn:Hls; [|done].
    exfalso. apply Hzero with (key := key) in Hclean; [|by eexists].
    apply Hguest in Hclean as (Ht & Hc & _ & Hg).
    unfold guest_data_key in Hkey. rewrite Ht, Hc in Hkey. simpl in Hkey.
    apply String.eqb_eq in Hkey as ->. by vm_compute in Hg.
Qed.

Lemma checkLocalStorageData_clean_witness :
  LogoutCleanupTest.checkLocalStorageData {[ "access_token" := "jwt-1" ]}
  = 0%nat
  ∧ ({[ "access_token" := "jwt-1" ]} : gmap string string) !! "task_a" = None.
Proof.
  assert (Hclean : LogoutCleanupTest.checkLocalStorageData
                     {[ "access_token" := "jwt-1" ]} = 0%nat).
  { vm_compute. reflexivity. }
  split; [exact Hclean|].
  exact (proj2 (checkLocalStorageData_clean {[ "access_token" := "jwt-1" ]})
           Hclean "task_a" eq_refl).
Defined.

End LogoutMore.

Section LogoutStats.
Context {rt : Runtime}.
Import Dashboard.

(** X20. After [handleLogout] the dashboard shows the statistics of the
    guest tasks still in the storage area: [refreshStats] no longer asks
    for the remote list, whatever it would answer, and the local list has
    the tasks it had before the logout. *)
Theorem refreshStats_after_logout now (remote : Js.Completion Js.Value)
    (ls : gmap string string) :
  getLocalTasks (Navigation.handleLogout ls) ≡ₚ getLocalTasks ls
  ∧ refreshStats now remote (Navigation.handleLogout ls)
    = computeStats now (getLocalTasks ls).
Proof.
  assert (Hperm : getLocalTasks (Navigation.handleLogout ls) ≡ₚ getLocalTasks ls).
  { unfold Navigation.handleLogout.
    by rewrite !getLocalTasks_removeItem_other. }
  split; [done|].
  unfold refreshStats, Storage.getItem. rewrite handleLogout_lookup. simpl.
  unfold computeStats. by apply forEach_Permutation.
Qed.

End LogoutStats.

(** ** The remote list *)

Section RemoteList.
Context {rt : Runtime}.
Import Dashboard.
Local Open Scope list_scope.

Lemma pick_fields_record (task : Js.Value) :
  nullish task = false →
  ∃ fields, pick_fields task = Js.Normal (Js.Object fields)
    ∧ dom fields = {[ "id"; "title"; "due_date"; "status" ]}
    ∧ ∀ name, name ∈ ["id"; "title"; "due_date"; "status"] →
        Js.get (Js.Object fields) name = Js.get task name.
Proof.
  intros Hn. unfold pick_fields.
  destruct (get_not_nullish task "id" Hn) as [id Hid].
  destruct (get_not_nullish task "title" Hn) as [title Htitle].
  destruct (get_not_nullish task "due_date" Hn) as [due Hdue].
  destruct (get_not_nullish task "status" Hn) as [status Hstatus].
  rewrite Hid, Htitle, Hdue, Hstatus. simpl. eexists. split; [reflexivity|].
  split.
  - rewrite !dom_insert_L, dom_singleton_L. apply set_eq. intros key.
    rewrite !elem_of_union, !elem_of_singleton. tauto.
  - intros name Hin.
    repeat (apply elem_of_cons in Hin as [->|Hin]);
      [ .. | by apply elem_of_nil in Hin ]; simpl;
      by rewrite ?Hid, ?Htitle, ?Hdue, ?Hstatus.
Qed.

Lemma pick_fields_nullish (task : Js.Value) :
  nullish task = true → pick_fields task = Js.Throw Js.TypeError.
Proof. by destruct task. Qed.

Lemma Array_map_pick_fields_nullish (tasks : list Js.Value) :
  Exists (λ task, nullish task = true) tasks →
  Array_map pick_fields (Js.Array tasks) = Js.Throw Js.TypeError.
Proof.
  induction tasks as [|task rest IH]; intros Hex;
    [by apply Exists_nil in Hex|].
  simpl. destruct (nullish task) eqn:Hn.
  - by rewrite pick_fields_nullish.
  - destruct (pick_fields_record task Hn) as (fields & -> & _). simpl.
    apply Exists_cons in Hex as [Hex|Hex]; [congruence|].
    simpl in IH. by rewrite IH.
Qed.

Lemma Array_map_pick_fields_records (tasks : list Js.Value) :
  Forall (λ task, nullish task = false) tasks →
  ∃ picked, Array_map pick_fields (Js.Array tasks) = Js.Normal picked
    ∧ Forall2 (λ task record,
         ∃ fields, record = Js.Object fields
           ∧ dom fields = {[ "id"; "title"; "due_date"; "status" ]}
           ∧ ∀ name, name ∈ ["id"; "title"; "due_date"; "status"] →
               Js.get record name = Js.get task name) tasks picked.
Proof.
  induction 1 as [|task rest Hn _ (picked & Hmap & Hall)]; simpl.
  - exists []. by split.
  - destruct (pick_fields_record task Hn) as (fields & -> & Hdom & Hget).
    simpl. simpl in Hmap. rewrite Hmap. simpl. eexists. split; [done|].
    constructor; [|done]. by exists fields.
Qed.

(** X21. For a remote answer whose [tasks] is an array without [null]
    entries, [fetchSupabaseTasks] returns one record for each task, in the
    same order, holding the task's [id], [title], [due_date] and [status]
    and no other field: the owner tag and the course are dropped. *)
Theorem fetchSupabaseTasks_records (data : Js.Value) (tasks : list Js.Value) :
  Js.get data "tasks" = Js.Normal (Js.Array tasks) →
  Forall (λ task, nullish task = false) tasks →
  ∃ picked, fetchSupabaseTasks (Js.Normal data) = Some picked
    ∧ Forall2 (λ task record,
         ∃ fields, record = Js.Object fields
           ∧ dom fields = {[ "id"; "title"; "due_date"; "status" ]}
           ∧ ∀ name, name ∈ ["id"; "title"; "due_date"; "status"] →
               Js.get record name = Js.get task name) tasks picked.
Proof.
  intros Hdata Hall.
  destruct (Array_map_pick_fields_records tasks Hall) as (picked & Hmap & Hrec).
  exists picked. split; [|done].
  unfold fetchSupabaseTasks. cbn [mbind Js.Completion_bind].
  rewrite Hdata. cbn [mbind Js.Completion_bind Js.or_else Js.truthy].
  by rewrite Hmap.
Qed.

(** X22. [fetchSupabaseTasks] returns [null] in these cases and no other:
    the remote call throws; its answer is [null] or [undefined]; the [tasks]
    of the answer is truthy and not an array; or it is an array that holds
    a [null] or [undefined] entry. *)
Theorem fetchSupabaseTasks_null_iff (remote : Js.Completion Js.Value) :
  fetchSupabaseTasks remote = None
  ↔ (∃ e, remote = Js.Throw e)
    ∨ ∃ data, remote = Js.Normal data
        ∧ (nullish data = true
           ∨ ∃ tasks, Js.get data "tasks" = Js.Normal tasks
               ∧ Js.truthy tasks = true
               ∧ ((∀ elems, tasks ≠ Js.Array elems)
                  ∨ ∃ elems, tasks = Js.Array elems
                      ∧ Exists (λ task, nullish task = true) elems)).
Proof.
  unfold fetchSupabaseTasks. destruct remote as [data|e]; simpl.
  2:{ split; [eauto|done]. }
  destruct (nullish data) eqn:Hn.
  { assert (Hget : Js.get data "tasks" = Js.Throw Js.TypeError)
      by by destruct data.
    rewrite Hget. simpl. split; [|done]. intros _. right. exists data. auto. }
  destruct (get_not_nullish data "tasks" Hn) as [tasks Hget].
  rewrite Hget. simpl. unfold Js.or_else.
  assert (Harr : ∀ elems,
    (Js.try_catch (Array_map pick_fields (Js.Array elems) ≫= λ picked,
                     mret (Some picked)) (λ _, None) = None
     ↔ Exists (λ task, nullish task = true) elems)).
  { intros elems.
    assert (Hdec : Exists (λ task, nullish task = true) elems
                   ∨ Forall (λ task, nullish task = false) elems).
    { induction elems as [|task rest [IH|IH]].
      - right. constructor.
      - left. by right.
      - destruct (nullish task) eqn:Ht; [left; by left|right; by constructor]. }
    destruct Hdec as [Hex|Hall].
    - rewrite (Array_map_pick_fields_nullish _ Hex). done.
    - destruct (Array_map_pick_fields_records _ Hall) as (picked & -> & _).
      simpl. split; [done|]. intros Hex. exfalso.
      apply Exists_exists in Hex as (t & Hin & Ht).
      rewrite Forall_forall in Hall. apply Hall in Hin. congruence. }
  destruct (Js.truthy tasks) eqn:Htruthy.
  - split.
    + intros Hnone. right. exists data. split; [done|]. right.
      exists tasks. split_and!; try done.
      destruct tasks as [| |b|q|s|elems|fields];
        try (left; by intros elems' [=]).
      right. exists elems. split; [done|]. by apply Harr.
    + intros [[e [=]]|(data' & [= <-] & [Hn'|(tasks' & Hget' & _ & Hcase)])];
        [congruence|].
      rewrite Hget in Hget'. injection Hget' as <-.
      destruct Hcase as [Hnot|(elems & -> & Hex)].
      * destruct tasks; try done. by specialize (Hnot elems).
      * by apply Harr.
  - simpl. split; [done|].
    intros [[e [=]]|(data' & [= <-] & [Hn'|(tasks' & Hget' & Ht' & _)])];
      [congruence|].
    rewrite Hget in Hget'. injection Hget' as <-. congruence.
Qed.

(** X23. One [null] entry spoils the whole remote list: with an access
    token and a remote answer whose [tasks] holds a [null] or [undefined]
    entry, [refreshStats] shows the statistics of the local guest tasks,
    however many well-formed tasks the answer holds besides. *)
Theorem refreshStats_null_entry now (data : Js.Value)
    (tasks : list Js.Value) (ls : gmap string string) :
  Js.get data "tasks" = Js.Normal (Js.Array tasks) →
  Exists (λ task, nullish task = true) tasks →
  refreshStats now (Js.Normal data) ls = computeStats now (getLocalTasks ls).
Proof.
  intros Hdata Hex. unfold refreshStats, fetchSupabaseTasks.
  cbn [mbind Js.Completion_bind]. rewrite Hdata.
  cbn [mbind Js.Completion_bind Js.or_else Js.truthy].
  rewrite (Array_map_pick_fields_nullish _ Hex). simpl.
  by destruct (Storage.truthy _).
Qed.

End RemoteList.

Lemma fetchSupabaseTasks_records_witness :
  ∃ picked,
    @Dashboard.fetchSupabaseTasks
      (Js.Normal (Js.Object {[ "tasks" := Js.Array [Demo.task_r] ]}))
    = Some picked
    ∧ Forall2 (λ task record,
         ∃ fields, record = Js.Object fields
           ∧ dom fields = {[ "id"; "title"; "due_date"; "status" ]}
           ∧ ∀ name, name ∈ ["id"; "title"; "due_date"; "status"] →
               Js.get record name = Js.get task name) [Demo.task_r] picked.
Proof.
  apply (fetchSupabaseTasks_records
           (Js.Object {[ "tasks" := Js.Array [Demo.task_r] ]}) [Demo.task_r]).
  - reflexivity.
  - repeat constructor.
Defined.

Lemma refreshStats_null_entry_witness :
  @Dashboard.refreshStats Demo.runtime Demo.now
    (Js.Normal (Js.Object {[ "tasks" := Js.Array [Demo.task_r; Js.Null] ]}))
    Demo.storage
  = @Dashboard.computeStats Demo.runtime Demo.now
      (@Dashboard.getLocalTasks Demo.runtime Demo.storage).
Proof.
  apply (@refreshStats_null_entry Demo.runtime Demo.now
           (Js.Object {[ "tasks" := Js.Array [Demo.task_r; Js.Null] ]})
           [Demo.task_r; Js.Null] Demo.storage).
  - reflexivity.
  - right. left. reflexivity.
Defined.

(** ** What an upload stores *)

Lemma startsWith_append (p s : string) : startsWith p (p +:+ s) = true.
Proof.
  unfold startsWith. induction p as [|c p IH]; simpl; [by destruct s|].
  by destruct (ascii_dec c c).
Qed.


Section UploadStores.
Context {rt : Runtime} {bi : Builtins}.
Import Upload.
Local Open Scope list_scope.

Lemma store_task_frame userId courseId (state : Stored) (task : Js.Value)
    (key : string) :
  startsWith "task_" key = false →
  (store_task userId courseId state task).1 !! key = state.1 !! key.
Proof.
  intros Hkey. unfold store_task.
  destruct (state.2); [done|].
  destruct (String.eqb userId "guest"); [|done].
  destruct (Js.get task "id") as [id|]; [|done].
  simpl. unfold Storage.setItem, taskKey. rewrite lookup_insert_ne; [done|].
  intros <-. by rewrite startsWith_append in Hkey.
Qed.

Lemma foldl_store_task_frame userId courseId (tasks : list Js.Value)
    (state : Stored) (key : string) :
  startsWith "task_" key = false →
  (foldl (store_task userId courseId) state tasks).1 !! key = state.1 !! key.
Proof.
  intros Hkey. revert state.
  induction tasks as [|task rest IH]; intros state; simpl; [done|].
  by rewrite IH, store_task_frame.
Qed.

Lemma foldl_store_task_registered userId courseId (tasks : list Js.Value)
    (state : Stored) :
  String.eqb userId "guest" = false →
  foldl (store_task userId courseId) state tasks = state.
Proof.
  intros Hu. induction tasks as [|task rest IH]; simpl; [done|].
  unfold store_task at 2. rewrite Hu.
  by destruct (state.2).
Qed.

(** X24. A signed-in upload writes nothing to the storage area, and throws
    nothing.  Whoever uploads, every key the block writes starts with
    [task_] or [course_]: the account keys and the guest token are never
    touched, and all that is written is guest data in the sense of the
    cleanup contract. *)
Theorem storeUpload_writes (fileName : string) (tasks : list Js.Value)
    (net : Js.Completion Response) (stamp suffix created_at : string)
    (ls : gmap string string) :
  let stored := storeUpload fileName tasks net stamp suffix created_at ls in
  (Storage.truthy (Storage.getItem ls "access_token") = true →
     stored = (ls, None))
  ∧ (∀ key, stored.1 !! key ≠ ls !! key →
       startsWith "task_" key = true ∨ startsWith "course_" key = true)
  ∧ (∀ key, guest_data_key key = false → stored.1 !! key = ls !! key).
Proof.
  intros stored.
  assert (Hframe : ∀ key, startsWith "task_" key = false →
            startsWith "course_" key = false → stored.1 !! key = ls !! key).
  { intros key Ht Hc. unfold stored, storeUpload.
    destruct (0 <? List.length tasks)%nat; [|done].
    set (userId := if Storage.truthy _ then _ else _).
    set (courseId := courseId_of net stamp suffix).
    set (ls1 := if String.eqb userId "guest" && Js.truthy courseId then _ else ls).
    assert (H1 : ls1 !! key = ls !! key).
    { unfold ls1. destruct (_ && _); [|done].
      unfold Storage.setItem, courseKey. rewrite lookup_insert_ne; [done|].
      intros <-. by rewrite startsWith_append in Hc. }
    pose proof (foldl_store_task_frame userId courseId tasks (ls1, None) key Ht)
      as Hfold.
    destruct (foldl (store_task userId courseId) (ls1, None) tasks)
      as [ls2 [e|]] eqn:Hstored; simpl in *; [by rewrite Hfold|].
    destruct (_ && _); simpl; [|by rewrite Hfold].
    destruct (task_ids tasks); simpl; [|by rewrite Hfold].
    unfold Storage.setItem, courseTasksKey.
    rewrite lookup_insert_ne; [by rewrite Hfold|].
    intros <-. by rewrite startsWith_append in Hc. }
  split_and!.
  - intros Htoken. unfold stored, storeUpload. rewrite Htoken. simpl.
    destruct (0 <? List.length tasks)%nat; [|done].
    by rewrite foldl_store_task_registered.
  - intros key Hdiff.
    destruct (startsWith "task_" key) eqn:Ht; [by left|].
    destruct (startsWith "course_" key) eqn:Hc; [by right|].
    exfalso. by apply Hdiff, Hframe.
  - intros key Hkey. unfold guest_data_key in Hkey.
    apply orb_false_iff in Hkey as [Hkey _].
    apply orb_false_iff in Hkey as [Ht Hc]. by apply Hframe.
Qed.








End UploadStores.

Section UploadEdges.
Context {rt : Runtime} {bi : Builtins}.
Import Upload.
Local Open Scope list_scope.






End UploadEdges.

(** ** Names, addresses and dates *)

Section CourseName.
Import Upload.

Lemma underscores_to_spaces_no_underscore (s : string) :
  "_"%char ∉ list_ascii_of_string (underscores_to_spaces s).
Proof.
  induction s as [|c s IH]; simpl; [apply not_elem_of_nil|].
  apply not_elem_of_cons. split; [|done].
  destruct (Ascii.eqb_spec c "_") as [->|Hne]; [done|congruence].
Qed.

Lemma substring_all (s : string) (m : nat) :
  (String.length s ≤ m)%nat → String.substring 0 m s = s.
Proof.
  revert m. induction s as [|c s IH]; intros [|m] Hle; simpl in *;
    try done; try lia.
  f_equal. apply IH. lia.
Qed.

Lemma remove_first_at (pattern rest : string) :
  remove_first pattern (pattern +:+ rest) = rest.
Proof.
  assert (Hsub : ∀ p m, String.substring (String.length p) m (p +:+ rest)
                        = String.substring 0 m rest).
  { induction p as [|c p IH]; intros m; simpl; [by destruct rest|done]. }
  assert (Hlen : ∀ p, (String.length rest ≤ String.length (p +:+ rest))%nat).
  { induction p as [|c p IH]; [exact (le_n _)|].
    change (String.length (String c p +:+ rest))
      with (S (String.length (p +:+ rest))). lia. }
  remember (pattern +:+ rest) as s eqn:Hs. destruct s as [|c s].
  - destruct pattern; [|discriminate Hs].
    change (EmptyString +:+ rest) with rest in Hs. by subst rest.
  - cbn [remove_first]. rewrite Hs.
    pose proof (startsWith_append pattern rest) as Hp. unfold startsWith in Hp.
    rewrite Hp, Hsub. by apply substring_all.
Qed.

Lemma remove_first_pdf (base rest : string) :
  "."%char ∉ list_ascii_of_string base →
  remove_first ".pdf" (base +:+ ".pdf" +:+ rest) = base +:+ rest.
Proof.
  induction base as [|c base IH]; intros Hdot.
  - apply (remove_first_at ".pdf" rest).
  - simpl in Hdot. apply not_elem_of_cons in Hdot as [Hc Hdot].
    change (String c base +:+ ".pdf" +:+ rest)
      with (String c (base +:+ ".pdf" +:+ rest)).
    change (String c base +:+ rest) with (String c (base +:+ rest)).
    cbn [remove_first String.prefix].
    destruct (ascii_dec "." c) as [Heq|_]; [by symmetry in Heq|].
    f_equal. by apply IH.
Qed.

(** X28. The course name made from a file name has no underscore; for a
    name without a dot before its first [.pdf], that [.pdf] is cut out and
    the underscores become spaces, and what follows stays, a second [.pdf]
    included. *)
Theorem courseName_of_file (base rest : string) :
  (∀ fileName, "_"%char ∉ list_ascii_of_string (courseName fileName))
  ∧ ("."%char ∉ list_ascii_of_string base →
     courseName (base +:+ ".pdf" +:+ rest)
     = underscores_to_spaces (base +:+ rest)).
Proof.
  split.
  - intros fileName. apply underscores_to_spaces_no_underscore.
  - intros Hdot. unfold courseName. by rewrite remove_first_pdf.
Qed.

Lemma courseName_of_file_witness :
  courseName ("CS_101_Syllabus" +:+ ".pdf" +:+ EmptyString) = "CS 101 Syllabus"
  ∧ courseName ("notes" +:+ ".pdf" +:+ ".pdf") = "notes.pdf".
Proof.
  split.
  - refine (proj2 (courseName_of_file "CS_101_Syllabus" EmptyString) _).
    vm_compute. intros H. repeat (apply elem_of_cons in H as [H|H]; [discriminate|]).
    by apply elem_of_nil in H.
  - refine (proj2 (courseName_of_file "notes" ".pdf") _).
    vm_compute. intros H. repeat (apply elem_of_cons in H as [H|H]; [discriminate|]).
    by apply elem_of_nil in H.
Defined.

End CourseName.

Section Addresses.

(** X29. [buildApiUrl] joins the base and the endpoint with one slash,
    whether or not the endpoint brings a leading slash of its own; an unset
    base is spliced in as [undefined].  The addresses [guestMode.ts] posts
    to are those of the guest endpoints under the base
    [http://localhost:8000]. *)
Theorem buildApiUrl_joins (base : option string) (endpoint token : string) :
  (startsWith "/" endpoint = false →
     Api.buildApiUrl base ("/" +:+ endpoint)
     = default "undefined" base +:+ "/" +:+ endpoint
     ∧ Api.buildApiUrl base endpoint
       = default "undefined" base +:+ "/" +:+ endpoint)
  ∧ url (GuestMode.registration token)
    = Api.buildApiUrl (Some "http://localhost:8000") Api.GUEST_SESSION
  ∧ "http://localhost:8000/api/guest/migrate/" +:+ token
    = Api.buildApiUrl (Some "http://localhost:8000") (Api.GUEST_MIGRATE token).
Proof.
  assert (Hstrip : ∀ b e, Api.buildApiUrl b ("/" +:+ e)
                          = default "undefined" b +:+ "/" +:+ e).
  { intros b e. unfold Api.buildApiUrl.
    rewrite startsWith_append.
    change (String.substring 1 (String.length ("/" +:+ e)) ("/" +:+ e))
      with (String.substring 0 (S (String.length e)) e).
    rewrite substring_all by lia. done. }
  split_and!.
  - intros Hslash. split; [apply Hstrip|].
    unfold Api.buildApiUrl. by rewrite Hslash.
  - done.
  - symmetry.
    exact (Hstrip (Some "http://localhost:8000") ("api/guest/migrate/" +:+ token)).
Qed.

Lemma buildApiUrl_joins_witness :
  Api.buildApiUrl None ("/" +:+ "api/tasks") = "undefined/api/tasks"
  ∧ Api.buildApiUrl None "api/tasks" = "undefined/api/tasks".
Proof.
  refine (proj1 (buildApiUrl_joins None "api/tasks" EmptyString) _).
  reflexivity.
Defined.

Lemma includes_T_append (s : string) :
  FirstDashboard.includes_T (s +:+ "T23:59:00") = true.
Proof.
  unfold FirstDashboard.includes_T. induction s as [|c s IH]; [done|].
  change (String c s +:+ "T23:59:00") with (String c (s +:+ "T23:59:00")).
  cbn [list_ascii_of_string existsb]. rewrite IH. apply orb_true_r.
Qed.

(** X30. The first dashboard gives every date-only due date a time: the
    [dueDateTime] of a string always holds a [T]; a string that holds one
    already is sent as it is, any other gets [T23:59:00] appended; a value
    that is no string is sent as it is.  Doing it twice changes nothing
    more. *)
Theorem dueDateTime_normalizes (due_date : Js.Value) :
  FirstDashboard.dueDateTime (FirstDashboard.dueDateTime due_date)
  = FirstDashboard.dueDateTime due_date
  ∧ (∀ s, due_date = Js.Str s →
       ∃ s', FirstDashboard.dueDateTime due_date = Js.Str s'
         ∧ FirstDashboard.includes_T s' = true
         ∧ s' = if FirstDashboard.includes_T s then s else s +:+ "T23:59:00")
  ∧ ((∀ s, due_date ≠ Js.Str s) →
     FirstDashboard.dueDateTime due_date = due_date).
Proof.
  split_and!.
  - destruct due_date as [| | | |s| |]; try done. simpl.
    destruct (FirstDashboard.includes_T s) eqn:Hs; simpl.
    + by rewrite Hs.
    + by rewrite includes_T_append.
  - intros s ->. simpl.
    destruct (FirstDashboard.includes_T s) eqn:Hs; simpl; eexists;
      (split; [reflexivity|]); split; try done.
    apply includes_T_append.
  - intros Hnot. destruct due_date; try done. by specialize (Hnot s).
Qed.

Lemma dueDateTime_normalizes_witness :
  ∃ s', FirstDashboard.dueDateTime (Js.Str "2024-04-01") = Js.Str s'
    ∧ FirstDashboard.includes_T s' = true
    ∧ s' = "2024-04-01T23:59:00".
Proof.
  exact (proj1 (proj2 (dueDateTime_normalizes (Js.Str "2024-04-01")))
           "2024-04-01" eq_refl).
Defined.

End Addresses.

(** ** The upload, run *)

Section UploadRun.
Import Upload.
#[local] Existing Instance UploadDemo.builtins.
#[local] Existing Instance UploadDemo.runtime.

Lemma storeUpload_writes_witness :
  storeUpload "CS_101.pdf" [UploadDemo.essay]
    (Js.Normal UploadDemo.course_created) "1711627200000" "k3j9x2q1z"
    "2024-03-28T12:00:00.000Z" Demo.storage
  = (Demo.storage, None).
Proof.
  refine (proj1 (storeUpload_writes "CS_101.pdf" [UploadDemo.essay]
            (Js.Normal UploadDemo.course_created) "1711627200000" "k3j9x2q1z"
            "2024-03-28T12:00:00.000Z" Demo.storage) _).
  vm_compute. reflexivity.
Defined.




End UploadRun.
